(** * make_responsive_images: the command-line layer and its two collaborators

    A shallow embedding of [src/make_responsive_images/main.py]:

    - Python text ([str]) is a Rocq [string] whose characters are code points
      below 256; integers are [Z] (Python integers are unbounded);
    - the command [image] runs in a small state-and-exception monad over a
      [World] made of the file system and the trace of the effects performed
      so far (console output and calls that leave the module);
    - [utils.resize_image], [utils.make_html], [Path.unlink] and the package
      constants live outside [main.py]: the command is parameterised by a
      [Host] that supplies them.  A second part models the two [utils]
      functions from the specification. *)

From Stdlib Require Import ZArith NArith List String Ascii Bool Lia.
From Stdlib Require Import Sorting.Permutation Sorting.Sorted.
From stdpp Require Import base option list strings gmap.

Local Open Scope Z_scope.

(* ===================================================================== *)
(** * Python text *)
(* ===================================================================== *)

Module Py.

Definition code (c : ascii) : Z := Z.of_N (N_of_ascii c).
Definition chr (n : Z) : ascii := ascii_of_N (Z.to_N n).

Definition comma : ascii := chr 44.
Definition dquote : ascii := chr 34.
Definition squote : ascii := chr 39.

(** One-character text. *)
Definition str1 (c : ascii) : string := String c EmptyString.

(** [sep.join(parts)]. *)
Fixpoint join (sep : string) (parts : list string) : string :=
  match parts with
  | [] => EmptyString
  | [p] => p
  | p :: rest => p +:+ sep +:+ join sep rest
  end.

(** [s.split(c)] for a one-character separator: never empty, the empty
    text splits into one empty piece. *)
Fixpoint split (c : ascii) (s : string) : list string :=
  match s with
  | EmptyString => [EmptyString]
  | String a s' =>
      if Ascii.eqb a c then EmptyString :: split c s'
      else match split c s' with
           | [] => [str1 a]
           | t :: ts => String a t :: ts
           end
  end.

(** Does the character occur in the text? *)
Fixpoint contains (c : ascii) (s : string) : bool :=
  match s with
  | EmptyString => false
  | String a s' => Ascii.eqb a c || contains c s'
  end.

(** ** [str(n)] for an integer: decimal digits, a minus sign when negative *)

Definition digit_char (d : Z) : ascii := chr (48 + d).

Fixpoint digits_fuel (fuel : nat) (n : Z) (acc : string) : string :=
  match fuel with
  | O => acc
  | S f =>
      let acc' := String (digit_char (n mod 10)) acc in
      if n <? 10 then acc' else digits_fuel f (n / 10) acc'
  end.

Definition str_nat (n : Z) : string :=
  digits_fuel (S (Z.to_nat (Z.log2 n))) n EmptyString.

Definition str_int (n : Z) : string :=
  if n <? 0 then String (chr 45) (str_nat (- n)) else str_nat n.

Definition str_bool (b : bool) : string := if b then "True" else "False".

(** An optional text formats as itself, [None] as the word None. *)
Definition str_opt (o : option string) : string :=
  match o with Some s => s | None => "None" end.

(** ** [int(s)] on text, base 10

    CPython first maps non-ASCII white space to a blank and any other
    non-ASCII character to a question mark, then reads: white space, an
    optional sign, digits in which single underscores may separate digits,
    white space, end of text.  Below code point 256 the white space is
    tab, line feed, vertical tab, form feed, carriage return, blank,
    next-line (133) and no-break space (160). *)

Definition is_space (c : ascii) : bool :=
  let n := code c in
  ((9 <=? n) && (n <=? 13)) || (n =? 32) || (n =? 133) || (n =? 160).

Definition is_digit (c : ascii) : bool :=
  let n := code c in (48 <=? n) && (n <=? 57).

Definition digit_val (c : ascii) : Z := code c - 48.

Definition is_underscore (c : ascii) : bool := code c =? 95.

Fixpoint skip_space (s : string) : string :=
  match s with
  | String c s' => if is_space c then skip_space s' else s
  | EmptyString => EmptyString
  end.

(** The digit loop: [prev_us] tells whether the previous character was an
    underscore, [acc] is the value read so far and [nd] the number of
    digits.  It stops at the first character that is neither a digit nor
    an underscore and fails on a doubled or a trailing underscore. *)
Fixpoint scan_digits (s : string) (prev_us : bool) (acc nd : Z)
  : option (Z * Z * string) :=
  match s with
  | EmptyString => if prev_us then None else Some (acc, nd, EmptyString)
  | String c s' =>
      if is_digit c then scan_digits s' false (10 * acc + digit_val c) (nd + 1)
      else if is_underscore c then
        if prev_us then None else scan_digits s' true acc nd
      else if prev_us then None else Some (acc, nd, s)
  end.

(** The interpreter's cap on the number of digits of a decimal literal
    ([sys.get_int_max_str_digits()], 0 when there is none; it only applies
    above 640 digits). *)
Definition too_many_digits (max_str_digits nd : Z) : bool :=
  (640 <? nd) && (0 <? max_str_digits) && (max_str_digits <? nd).

Definition read_sign (s : string) : Z * string :=
  match s with
  | String c s' =>
      if code c =? 43 then (1, s')
      else if code c =? 45 then (-1, s')
      else (1, s)
  | EmptyString => (1, s)
  end.

Definition int (max_str_digits : Z) (s : string) : option Z :=
  let (sign, body) := read_sign (skip_space s) in
  match body with
  | EmptyString => None
  | String c _ =>
      if is_underscore c then None
      else
        match scan_digits body false 0 0 with
        | None => None
        | Some (v, nd, rest) =>
            if nd =? 0 then None
            else if too_many_digits max_str_digits nd then None
            else
              match skip_space rest with
              | EmptyString => Some (sign * v)
              | String _ _ => None
              end
        end
  end.

End Py.

(* ===================================================================== *)
(** * Exceptions, host, world and the command monad *)
(* ===================================================================== *)

(** The exceptions that can end a run.  [ValueError] is what [int()] raises
    on a text it refuses (the specification's ArgumentError) and carries
    the token [int()] was given, not the message: CPython's message quotes
    the token for an invalid literal and quotes no text when the token is
    refused for its number of digits.  [Exit] is [typer.Exit]; the three
    error kinds of the specification and [OSError] come from outside
    [main.py]. *)
Inductive exn : Type :=
| ValueError (literal : string)
| Exit (code : Z)
| DecodeError
| EncodeError
| FormatError
| OSError (what : string).

Inductive outcome (A : Type) : Type :=
| Done (a : A)
| Raised (e : exn).
Arguments Done {A} a.
Arguments Raised {A} e.

(** Everything [main.py] imports or calls but does not define.  A path is
    kept as the text [str(path)]; [Path] is pathlib's constructor.  The
    three operations act on the file system and may raise. *)
Record Host : Type := {
  FS : Type;
  Filenames : Type;
  app_name : string;
  app_version : string;
  int_max_str_digits : Z;
  Path : string -> string;
  str_filenames : Filenames -> string;
  resize_image :
    FS -> string -> list Z -> string -> Z -> bool -> bool ->
    FS * outcome Filenames;
  make_html :
    FS -> string -> Filenames -> option string -> string -> bool ->
    string -> option string -> bool -> FS * outcome string;
  unlink : FS -> string -> FS * outcome unit
}.

Inductive colour : Type := GREEN.

(** The observable steps of a run, in the order they happen. *)
Inductive event (H : Host) : Type :=
| Echo (msg : string)
| Secho (msg : string) (fg : colour)
| CallResize (file : string) (widths : list Z) (fmt : string) (qual : Z)
    (lower dashes : bool)
| CallMakeHtml (orig_img_file : string) (filenames : Filenames H)
    (classes : option string) (img_sizes : string) (lazy : bool)
    (alt : string) (dir : option string) (flask : bool)
| CallUnlink (file : string).
Arguments Echo {H} msg.
Arguments Secho {H} msg fg.
Arguments CallResize {H} file widths fmt qual lower dashes.
Arguments CallMakeHtml {H} orig_img_file filenames classes img_sizes lazy alt dir flask.
Arguments CallUnlink {H} file.

Record World (H : Host) : Type := mkWorld {
  fs : FS H;
  trace : list (event H)
}.
Arguments mkWorld {H} fs trace.
Arguments fs {H} w.
Arguments trace {H} w.

(** Is the step a call that can touch the disk? *)
Definition is_io {H : Host} (e : event H) : bool :=
  match e with
  | Echo _ | Secho _ _ => false
  | CallResize _ _ _ _ _ _ | CallMakeHtml _ _ _ _ _ _ _ _ | CallUnlink _ => true
  end.

Definition is_unlink {H : Host} (e : event H) : bool :=
  match e with CallUnlink _ => true | _ => false end.

Definition is_resize {H : Host} (e : event H) : bool :=
  match e with CallResize _ _ _ _ _ _ => true | _ => false end.

Definition is_make_html {H : Host} (e : event H) : bool :=
  match e with CallMakeHtml _ _ _ _ _ _ _ _ => true | _ => false end.

Definition M (H : Host) (A : Type) : Type := World H -> World H * outcome A.

Definition ret {H : Host} {A : Type} (a : A) : M H A := fun w => (w, Done a).

Definition raise {H : Host} {A : Type} (e : exn) : M H A := fun w => (w, Raised e).

Definition bind {H : Host} {A B : Type} (m : M H A) (k : A -> M H B) : M H B :=
  fun w =>
    match m w with
    | (w', Done a) => k a w'
    | (w', Raised e) => (w', Raised e)
    end.

Declare Scope cmd_scope.
Delimit Scope cmd_scope with cmd.
Notation "x <- m ;; k" := (bind m (fun x => k))
  (at level 100, m at next level, right associativity) : cmd_scope.
Notation "m ;; k" := (bind m (fun _ => k))
  (at level 100, right associativity) : cmd_scope.

Definition log {H : Host} (e : event H) : M H unit :=
  fun w => (mkWorld (fs w) (trace w ++ [e]), Done tt).

(** A call that leaves the module: logged, then run on the file system. *)
Definition call {H : Host} {A : Type} (e : event H) (op : FS H -> FS H * outcome A)
  : M H A :=
  fun w =>
    let (fs', r) := op (fs w) in
    (mkWorld fs' (trace w ++ [e]), r).

Definition of_outcome {H : Host} {A : Type} (r : outcome A) : M H A :=
  fun w => (w, r).

(* ===================================================================== *)
(** * main.py *)
(* ===================================================================== *)

Definition nl : string := Py.str1 (Py.chr 10).

(** The parameters of the command [image], as Typer hands them over.
    [arg_qual] is an integer Typer has read from the command line, so its
    decimal text is within the interpreter's cap on digits and formatting
    it cannot fail. *)
Record ImageArgs : Type := {
  arg_image : string;
  arg_widths : string;
  arg_html : bool;
  arg_classes : option string;
  arg_img_sizes : string;
  arg_lazy : bool;
  arg_alt : string;
  arg_dir : option string;
  arg_fmt : string;
  arg_qual : Z;
  arg_lower : bool;
  arg_dashes : bool;
  arg_flask : bool;
  arg_delete : bool
}.

(** The declared defaults of the options. *)
Definition default_args (image : string) : ImageArgs := {|
  arg_image := image;
  arg_widths := "600,1000,1400";
  arg_html := true;
  arg_classes := None;
  arg_img_sizes := "100vw";
  arg_lazy := false;
  arg_alt := EmptyString;
  arg_dir := None;
  arg_fmt := "webp";
  arg_qual := 100;
  arg_lower := true;
  arg_dashes := true;
  arg_flask := false;
  arg_delete := true
|}.

(** [[int(width) for width in widths_split]]: left to right, the first
    token that [int()] refuses raises; the error records that token,
    whichever of the two messages CPython gives. *)
Fixpoint int_each (max_str_digits : Z) (toks : list string) : outcome (list Z) :=
  match toks with
  | [] => Done []
  | t :: ts =>
      match Py.int max_str_digits t with
      | None => Raised (ValueError t)
      | Some z =>
          match int_each max_str_digits ts with
          | Done zs => Done (z :: zs)
          | Raised e => Raised e
          end
      end
  end.

(** Lines 103-104. *)
Definition parse_widths (max_str_digits : Z) (widths : string) : outcome (list Z) :=
  let widths_split := Py.split Py.comma widths in
  int_each max_str_digits widths_split.

Section Main.

Context {H : Host}.
Local Open Scope cmd_scope.

Definition echo (msg : string) : M H unit := log (Echo msg).
Definition secho (msg : string) (fg : colour) : M H unit := log (Secho msg fg).

Definition _version_callback (value : option bool) : M H unit :=
  match value with
  | Some true =>
      echo (app_name H +:+ " v" +:+ app_version H) ;;
      raise (Exit 0)
  | _ => ret tt
  end.

Definition version (version : option bool) : M H bool :=
  match version with
  | Some true => ret true
  | _ => ret false
  end.

(** The thirteen lines that echo the options (lines 89-101). *)
Definition echo_options (a : ImageArgs) : M H unit :=
  secho ("Image: " +:+ arg_image a) GREEN ;;
  echo ("Widths needed: " +:+ arg_widths a) ;;
  echo ("HTML wanted: " +:+ Py.str_bool (arg_html a)) ;;
  echo ("Classes wanted: " +:+ Py.str_opt (arg_classes a)) ;;
  echo ("Image sizes wanted: " +:+ arg_img_sizes a) ;;
  echo ("Lazy loading wanted: " +:+ Py.str_bool (arg_lazy a)) ;;
  echo ("Alt text wanted: " +:+ arg_alt a) ;;
  echo ("Directory to append: " +:+ Py.str_opt (arg_dir a)) ;;
  echo ("Image format wanted: " +:+ arg_fmt a) ;;
  echo ("Quality/compression wanted: " +:+ Py.str_int (arg_qual a)) ;;
  echo ("Lowercase filename wanted: " +:+ Py.str_bool (arg_lower a)) ;;
  echo ("Dashes wanted: " +:+ Py.str_bool (arg_dashes a)) ;;
  echo ("Flask url_for() wanted: " +:+ Py.str_bool (arg_flask a)).

Definition image (a : ImageArgs) : M H bool :=
  echo_options a ;;
  widths_list <- of_outcome (parse_widths (int_max_str_digits H) (arg_widths a)) ;;
  let file := Path H (arg_image a) in
  filenames <-
    call (CallResize file widths_list (arg_fmt a) (arg_qual a)
            (arg_lower a) (arg_dashes a))
         (fun d => resize_image H d file widths_list (arg_fmt a) (arg_qual a)
                     (arg_lower a) (arg_dashes a)) ;;
  echo ("filenames: " +:+ str_filenames H filenames) ;;
  (if arg_html a then
     html_str <-
       call (CallMakeHtml file filenames (arg_classes a) (arg_img_sizes a)
               (arg_lazy a) (arg_alt a) (arg_dir a) (arg_flask a))
            (fun d => make_html H d file filenames (arg_classes a)
                        (arg_img_sizes a) (arg_lazy a) (arg_alt a)
                        (arg_dir a) (arg_flask a)) ;;
     echo ("HTML <img> tag: " +:+ nl +:+ nl +:+ html_str)
   else ret tt) ;;
  (if arg_delete a then
     call (CallUnlink file) (fun d => unlink H d file) ;;
     echo ("Deleted original image: " +:+ file)
   else ret tt) ;;
  echo (nl +:+ nl +:+ "Done!" +:+ nl) ;;
  ret true.

(** Typer's dispatch of [app()], after the command line is split: the
    eager callback of the version option runs first, on [True] when the
    flag [--version] or [-v] is present and on [None] otherwise; what it
    returns becomes the value handed to the callback [version]; the
    command [image] runs last, when one is named. *)
Definition app (version_flag : bool) (command : option ImageArgs) : M H unit :=
  _version_callback (if version_flag then Some true else None) ;;
  version None ;;
  match command with
  | Some a => image a ;; ret tt
  | None => ret tt
  end.

End Main.

(* ===================================================================== *)
(** * utils.py, modelled from the specification *)
(* ===================================================================== *)

Module Utils.

(** ** Paths and names *)

(** Cut a text at the last occurrence of a character. *)
Fixpoint rsplit1 (c : ascii) (s : string) : option (string * string) :=
  match s with
  | EmptyString => None
  | String a s' =>
      match rsplit1 c s' with
      | Some (l, r) => Some (String a l, r)
      | None => if Ascii.eqb a c then Some (EmptyString, s') else None
      end
  end.

Definition slash : ascii := Py.chr 47.
Definition dot : ascii := Py.chr 46.
Definition hyphen : ascii := Py.chr 45.

(** The last component of a path and the directory part before it
    (with its closing slash, empty for a bare name). *)
Definition basename (p : string) : string :=
  match rsplit1 slash p with Some (_, r) => r | None => p end.

Definition dirpart (p : string) : string :=
  match rsplit1 slash p with
  | Some (l, _) => l +:+ Py.str1 slash
  | None => EmptyString
  end.

(** Modelled from the spec: the stem of a file name is the name without
    its extension (glossary); a leading or a closing dot starts no
    extension. *)
Definition stem (name : string) : string :=
  match rsplit1 dot name with
  | Some (EmptyString, _) => name
  | Some (_, EmptyString) => name
  | Some (l, _) => l
  | None => name
  end.

Definition map_chars (f : ascii -> ascii) : string -> string :=
  fix go (s : string) : string :=
    match s with
    | EmptyString => EmptyString
    | String c s' => String (f c) (go s')
    end.

Definition lower_char (c : ascii) : ascii :=
  let n := Py.code c in
  if (65 <=? n) && (n <=? 90) then Py.chr (n + 32) else c.

Definition dash_char (c : ascii) : ascii :=
  if Py.code c =? 95 then hyphen else c.

Definition lowercase : string -> string := map_chars lower_char.
Definition underscores_to_hyphens : string -> string := map_chars dash_char.

(** Modelled from the spec: the name of the variant of width [w] (section
    4.1): lowercase the stem if [lower] is set, replace underscores with
    hyphens if [dashes] is set, append [-{width}.{format}]. *)
Definition variant_stem (file : string) (lower dashes : bool) : string :=
  let s := stem (basename file) in
  let s := if lower then lowercase s else s in
  if dashes then underscores_to_hyphens s else s.

Definition variant_name (file : string) (lower dashes : bool) (fmt : string)
  (w : Z) : string :=
  variant_stem file lower dashes +:+ Py.str1 hyphen +:+ Py.str_int w
    +:+ Py.str1 dot +:+ fmt.

Definition output_names (file : string) (widths : list Z) (fmt : string)
  (lower dashes : bool) : list string :=
  map (variant_name file lower dashes fmt) widths.

(** The formats of the enumerated set. *)
Definition supported (fmt : string) : bool :=
  String.eqb fmt "jpg" || String.eqb fmt "webp".

(** A width list the resizer accepts: not empty, positive integers. *)
Definition valid_widths (widths : list Z) : Prop :=
  widths <> [] /\ Forall (fun w => 0 < w) widths.

(** ** The resizer *)

Section Resizer.

(** The image capability is opaque: decode a file's content, scale a
    raster to a width keeping its aspect ratio, encode a raster to a
    format at a quality.  A disk maps paths to contents; [writable]
    tells where a write succeeds. *)
Context {Blob Raster : Type}.
Variable decode : Blob -> option Raster.
Variable scale : Raster -> Z -> Raster.
Variable encode : Raster -> string -> Z -> option Blob.
Variable writable : string -> bool.

(** One variant per width, in order; a failure stops the loop and keeps
    what was written before it. *)
Fixpoint write_variants (d : gmap string Blob) (img : Raster)
  (file fmt : string) (qual : Z) (lower dashes : bool) (widths : list Z)
  : gmap string Blob * outcome (list string) :=
  match widths with
  | [] => (d, Done [])
  | w :: ws =>
      let name := variant_name file lower dashes fmt w in
      let target := dirpart file +:+ name in
      match encode (scale img w) fmt qual with
      | None => (d, Raised EncodeError)
      | Some b =>
          if writable target then
            match write_variants (<[target := b]> d) img file fmt qual
                    lower dashes ws with
            | (d', Done names) => (d', Done (name :: names))
            | (d', Raised e) => (d', Raised e)
            end
          else (d, Raised EncodeError)
      end
  end.

(** Modelled from the spec: [utils.resize_image], the Resizer of section
    4.1, which [main.py] imports and whose source is missing.
    DecodeError when the source cannot be read as an image, EncodeError
    when the format is unsupported or an encode or a write fails. *)
Definition resize_image (d : gmap string Blob) (file : string)
  (widths : list Z) (fmt : string) (qual : Z) (lower dashes : bool)
  : gmap string Blob * outcome (list string) :=
  match d !! file with
  | None => (d, Raised DecodeError)
  | Some blob =>
      match decode blob with
      | None => (d, Raised DecodeError)
      | Some img =>
          if supported fmt then
            write_variants d img file fmt qual lower dashes widths
          else (d, Raised EncodeError)
      end
  end.

End Resizer.

(** ** The HTML builder *)

(** Strict decimal text: digits only, at least one. *)
Fixpoint all_digits (s : string) : bool :=
  match s with
  | EmptyString => true
  | String c s' => Py.is_digit c && all_digits s'
  end.

Fixpoint digits_value (acc : Z) (s : string) : Z :=
  match s with
  | EmptyString => acc
  | String c s' => digits_value (10 * acc + Py.digit_val c) s'
  end.

(** Modelled from the spec: the width a generated file name carries,
    parsed back out of the name (section 4.2): the digits between the
    last hyphen and the extension. *)
Definition width_of (name : string) : option Z :=
  match rsplit1 dot name with
  | None => None
  | Some (l, _) =>
      match rsplit1 hyphen l with
      | None => None
      | Some (_, EmptyString) => None
      | Some (_, wtxt) =>
          if all_digits wtxt then Some (digits_value 0 wtxt) else None
      end
  end.

(** Ascending order of the carried widths; a name that carries none sorts
    first. *)
Definition width_le (a b : string) : bool :=
  match width_of a, width_of b with
  | None, _ => true
  | Some _, None => false
  | Some x, Some y => x <=? y
  end.

Fixpoint insert_by_width (x : string) (l : list string) : list string :=
  match l with
  | [] => [x]
  | y :: l' => if width_le x y then x :: l else y :: insert_by_width x l'
  end.

Definition sort_by_width (l : list string) : list string :=
  fold_right insert_by_width [] l.

(** A text between double quotes. *)
Definition quoted (s : string) : string :=
  Py.str1 Py.dquote +:+ s +:+ Py.str1 Py.dquote.

Section Builder.

(** The syntax of the static-asset helper call is the one thing the
    specification leaves to the framework. *)
Variable static_helper : option string -> string -> string.

(** The two path-rendering strategies (section 9): plain join with the
    directory prefix, or the helper's call syntax. *)
Definition render_path (dir : option string) (flask : bool) (name : string)
  : string :=
  if flask then static_helper dir name
  else match dir with
       | Some d => d +:+ Py.str1 slash +:+ name
       | None => name
       end.

(** One [srcset] candidate: the path, then the width descriptor. *)
Definition srcset_entry (dir : option string) (flask : bool) (name : string)
  : string :=
  match width_of name with
  | Some w => render_path dir flask name +:+ " " +:+ Py.str_int w +:+ "w"
  | None => render_path dir flask name
  end.

Definition srcset_entries (dir : option string) (flask : bool)
  (filenames : list string) : list string :=
  map (srcset_entry dir flask) (sort_by_width filenames).

(** The widest variant: the last one in ascending order. *)
Definition widest (filenames : list string) : option string :=
  last (sort_by_width filenames).

Definition img_attrs (filenames : list string) (classes : option string)
  (sizes : string) (lazy : bool) (alt : string) (dir : option string)
  (flask : bool) : list (string * string) :=
  [("src", match widest filenames with
           | Some f => render_path dir flask f
           | None => EmptyString
           end);
   ("srcset", Py.join ", " (srcset_entries dir flask filenames));
   ("sizes", sizes)]
  ++ match classes with Some c => [("class", c)] | None => [] end
  ++ (if lazy then [("loading", "lazy")] else [])
  ++ [("alt", alt)].

Definition render_attr (kv : string * string) : string :=
  " " +:+ fst kv +:+ "=" +:+ quoted (snd kv).

Definition render_img (attrs : list (string * string)) : string :=
  "<img" +:+ Py.join EmptyString (map render_attr attrs) +:+ ">".

(** Modelled from the spec: [utils.make_html], the HTML builder of
    section 4.2, which [main.py] imports and whose source is missing.
    FormatError only when there is no file name to build a tag from. *)
Definition make_html (orig_img_file : string) (filenames : list string)
  (classes : option string) (img_sizes : string) (lazy : bool)
  (alt : string) (dir : option string) (flask : bool) : outcome string :=
  match filenames with
  | [] => Raised FormatError
  | _ :: _ =>
      Done (render_img (img_attrs filenames classes img_sizes lazy alt dir flask))
  end.

End Builder.

End Utils.

(* ===================================================================== *)
(** * A concrete host: a POSIX machine running the modelled utils *)
(* ===================================================================== *)

Module Sample.

(** [repr] of a text and of a list of texts, as the f-string of line 115
    prints a list of names. *)
Definition backslash : ascii := Py.chr 92.

Definition hex_digit (n : Z) : ascii :=
  if n <? 10 then Py.chr (48 + n) else Py.chr (87 + n).

Definition printable (c : ascii) : bool :=
  let n := Py.code c in
  ((32 <=? n) && (n <? 127)) || ((161 <=? n) && negb (n =? 173)).

Definition repr_char (quote c : ascii) : string :=
  let n := Py.code c in
  if Ascii.eqb c backslash then String backslash (Py.str1 backslash)
  else if Ascii.eqb c quote then String backslash (Py.str1 quote)
  else if n =? 10 then String backslash "n"
  else if n =? 13 then String backslash "r"
  else if n =? 9 then String backslash "t"
  else if printable c then Py.str1 c
  else String backslash
         (String (Py.chr 120)
            (String (hex_digit (n / 16)) (Py.str1 (hex_digit (n mod 16))))).

Fixpoint repr_chars (quote : ascii) (s : string) : string :=
  match s with
  | EmptyString => EmptyString
  | String c s' => repr_char quote c +:+ repr_chars quote s'
  end.

Definition repr_str (s : string) : string :=
  let quote :=
    if Py.contains Py.squote s && negb (Py.contains Py.dquote s)
    then Py.dquote else Py.squote in
  String quote (repr_chars quote s +:+ Py.str1 quote).

Definition repr_list (l : list string) : string :=
  "[" +:+ Py.join ", " (map repr_str l) +:+ "]".

(** [str(PurePosixPath(s))]: empty and dot components vanish, a leading
    slash is kept (exactly two are kept as two), nothing left is a dot. *)
Definition posix_root (s : string) : string :=
  match s with
  | String a (String b (String c _)) =>
      if Ascii.eqb a Utils.slash then
        if Ascii.eqb b Utils.slash && negb (Ascii.eqb c Utils.slash)
        then "//" else "/"
      else EmptyString
  | String a (String b EmptyString) =>
      if Ascii.eqb a Utils.slash then
        if Ascii.eqb b Utils.slash then "//" else "/"
      else EmptyString
  | String a EmptyString => if Ascii.eqb a Utils.slash then "/" else EmptyString
  | EmptyString => EmptyString
  end.

Definition posix_path (s : string) : string :=
  let parts :=
    filter (fun c => negb (String.eqb c EmptyString) && negb (String.eqb c ".") = true)
           (Py.split Utils.slash s) in
  match posix_root s, parts with
  | EmptyString, [] => "."
  | root, _ => root +:+ Py.join "/" parts
  end.

(** A stand-in codec: a raster is the source bytes and a width. *)
Definition decode (b : string) : option (string * Z) :=
  match b with EmptyString => None | _ => Some (b, 0) end.

Definition scale (r : string * Z) (w : Z) : string * Z := (fst r, w).

Definition encode (r : string * Z) (fmt : string) (qual : Z) : option string :=
  Some (fmt +:+ ":" +:+ Py.str_int (snd r) +:+ ":" +:+ fst r).

Definition flask_helper (dir : option string) (name : string) : string :=
  "{{ url_for('static', filename='"
    +:+ match dir with Some d => d +:+ "/" +:+ name | None => name end
    +:+ "') }}".

Definition remove_file (d : gmap string string) (file : string)
  : gmap string string * outcome unit :=
  match d !! file with
  | Some _ => (delete file d, Done tt)
  | None => (d, Raised (OSError "FileNotFoundError"))
  end.

(** The machine: [read_only] is a path that refuses writes, [html_ok]
    tells whether the HTML builder is the modelled one or one that
    always fails. *)
Definition machine (read_only : string) (html_ok : bool) : Host := {|
  FS := gmap string string;
  Filenames := list string;
  app_name := "make_responsive_images";
  app_version := "0.1.0";
  int_max_str_digits := 4300;
  Path := posix_path;
  str_filenames := repr_list;
  resize_image :=
    Utils.resize_image decode scale encode
      (fun p => negb (String.eqb p read_only));
  make_html := fun d orig filenames classes img_sizes lazy alt dir flask =>
    (d, if html_ok
        then Utils.make_html flask_helper orig filenames classes img_sizes
               lazy alt dir flask
        else Raised FormatError);
  unlink := remove_file
|}.

Definition host : Host := machine EmptyString true.

(** A disk holding one picture, and invocations on it: the options of
    the specification's scenario, with the widths, the format and the
    flags [--html] and [--delete] left open. *)
Definition disk : gmap string string := {[ "img/photo_one.JPG" := "pixels" ]}.

Definition start (Hst : Host) (d : FS Hst) : World Hst := mkWorld d [].

Definition args (widths fmt : string) (html delete : bool) : ImageArgs := {|
  arg_image := "img/photo_one.JPG";
  arg_widths := widths;
  arg_html := html;
  arg_classes := None;
  arg_img_sizes := "50vw";
  arg_lazy := false;
  arg_alt := "x";
  arg_dir := None;
  arg_fmt := fmt;
  arg_qual := 100;
  arg_lower := true;
  arg_dashes := true;
  arg_flask := false;
  arg_delete := delete
|}.

Definition scenario : ImageArgs := args "400,800" "webp" true true.

(** Two faulty machines: one whose second variant cannot be written, and
    one whose HTML builder fails. *)
Definition full_disk_host : Host := machine "img/photo-one-800.webp" true.
Definition broken_html_host : Host := machine EmptyString false.

End Sample.


(* ===================================================================== *)
(** * Vocabulary of the statements *)
(* ===================================================================== *)

Section Vocabulary.

Context {H : Host}.

(** What lines 89-101 put on the console. *)
Definition option_events (a : ImageArgs) : list (event H) :=
  [ Secho ("Image: " +:+ arg_image a) GREEN;
    Echo ("Widths needed: " +:+ arg_widths a);
    Echo ("HTML wanted: " +:+ Py.str_bool (arg_html a));
    Echo ("Classes wanted: " +:+ Py.str_opt (arg_classes a));
    Echo ("Image sizes wanted: " +:+ arg_img_sizes a);
    Echo ("Lazy loading wanted: " +:+ Py.str_bool (arg_lazy a));
    Echo ("Alt text wanted: " +:+ arg_alt a);
    Echo ("Directory to append: " +:+ Py.str_opt (arg_dir a));
    Echo ("Image format wanted: " +:+ arg_fmt a);
    Echo ("Quality/compression wanted: " +:+ Py.str_int (arg_qual a));
    Echo ("Lowercase filename wanted: " +:+ Py.str_bool (arg_lower a));
    Echo ("Dashes wanted: " +:+ Py.str_bool (arg_dashes a));
    Echo ("Flask url_for() wanted: " +:+ Py.str_bool (arg_flask a)) ].

Definition source_file (a : ImageArgs) : string := Path H (arg_image a).

Definition widths_of (a : ImageArgs) : outcome (list Z) :=
  parse_widths (int_max_str_digits H) (arg_widths a).

(** The call of lines 107-114 and what it does to the disk. *)
Definition resize_call (a : ImageArgs) (ws : list Z) : event H :=
  CallResize (source_file a) ws (arg_fmt a) (arg_qual a) (arg_lower a)
    (arg_dashes a).

Definition run_resize (a : ImageArgs) (ws : list Z) (d : FS H)
  : FS H * outcome (Filenames H) :=
  resize_image H d (source_file a) ws (arg_fmt a) (arg_qual a) (arg_lower a)
    (arg_dashes a).

(** The call of lines 118-127 and what it does. *)
Definition html_call (a : ImageArgs) (names : Filenames H) : event H :=
  CallMakeHtml (source_file a) names (arg_classes a) (arg_img_sizes a)
    (arg_lazy a) (arg_alt a) (arg_dir a) (arg_flask a).

Definition run_make_html (a : ImageArgs) (names : Filenames H) (d : FS H)
  : FS H * outcome string :=
  make_html H d (source_file a) names (arg_classes a) (arg_img_sizes a)
    (arg_lazy a) (arg_alt a) (arg_dir a) (arg_flask a).

Definition names_echo (names : Filenames H) : event H :=
  Echo ("filenames: " +:+ str_filenames H names).

(** The events a run of [image] adds to the trace. *)
Definition added (a : ImageArgs) (w : World H) (t : list (event H)) : Prop :=
  trace (fst (image a w)) = trace w ++ t.

End Vocabulary.
Arguments widths_of H a : clear implicits.
Arguments source_file H a : clear implicits.

(** Text made of white space only, as [int()] sees it. *)
Fixpoint blank (s : string) : bool :=
  match s with
  | EmptyString => true
  | String c s' => Py.is_space c && blank s'
  end.

(** The number of decimal digits of an integer. *)
Definition digit_count (z : Z) : Z :=
  Z.of_nat (String.length (Py.str_nat (Z.abs z))).



(** A generated file name that carries its width. *)
Definition carries_width (name : string) : Prop := Utils.width_of name <> None.

(** Ascending order of the widths that file names carry. *)
Definition width_leq (a b : string) : Prop := Utils.width_le a b = true.

(** The reading of [--fmt] as an enumeration: a value outside jpg and webp
    never reaches the resizer. *)
Definition cli_rejects_unlisted_fmt (H : Host) : Prop :=
  forall (a : ImageArgs) (w : World H) (t : list (event H)),
    ~ In (arg_fmt a) ["jpg"; "webp"] ->
    added a w t ->
    existsb is_resize t = false.

(* ===================================================================== *)
(** * The runs of [image] *)
(* ===================================================================== *)

Section Runs.

Context {H : Host}.

Definition html_echo (html_str : string) : event H :=
  Echo ("HTML <img> tag: " +:+ nl +:+ nl +:+ html_str).

Definition deleted_echo (a : ImageArgs) : event H :=
  Echo ("Deleted original image: " +:+ source_file H a).

Definition done_echo : event H := Echo (nl +:+ nl +:+ "Done!" +:+ nl).

(** Lines 117-128 when they end without error: skipped, or the tag built
    and echoed. *)
Inductive html_done (a : ImageArgs) (names : Filenames H) (d1 : FS H)
  : list (event H) -> FS H -> Prop :=
| HtmlSkipped :
    arg_html a = false -> html_done a names d1 [] d1
| HtmlBuilt (d2 : FS H) (s : string) :
    arg_html a = true ->
    run_make_html a names d1 = (d2, Done s) ->
    html_done a names d1 [html_call a names; html_echo s] d2.

(** Lines 130-132 when they end without error. *)
Inductive delete_done (a : ImageArgs) (d2 : FS H)
  : list (event H) -> FS H -> Prop :=
| DeleteSkipped :
    arg_delete a = false -> delete_done a d2 [] d2
| DeleteUnlinked (d3 : FS H) (u : unit) :
    arg_delete a = true ->
    unlink H d2 (source_file H a) = (d3, Done u) ->
    delete_done a d2 [CallUnlink (source_file H a); deleted_echo a] d3.

(** The five ways a run of [image] from the disk [d0] can go: the events
    it adds, the disk it leaves and how it ends. *)
Inductive run (a : ImageArgs) (d0 : FS H)
  : list (event H) -> FS H -> outcome bool -> Prop :=
| RunBadWidths (e : exn) :
    widths_of H a = Raised e ->
    run a d0 (option_events a) d0 (Raised e)
| RunResizeRaises (ws : list Z) (d1 : FS H) (e : exn) :
    widths_of H a = Done ws ->
    run_resize a ws d0 = (d1, Raised e) ->
    run a d0 (option_events a ++ [resize_call a ws]) d1 (Raised e)
| RunHtmlRaises (ws : list Z) (d1 d2 : FS H) (names : Filenames H) (e : exn) :
    widths_of H a = Done ws ->
    run_resize a ws d0 = (d1, Done names) ->
    arg_html a = true ->
    run_make_html a names d1 = (d2, Raised e) ->
    run a d0
      (option_events a
         ++ [resize_call a ws; names_echo names; html_call a names])
      d2 (Raised e)
| RunUnlinkRaises (ws : list Z) (d1 d2 d3 : FS H) (names : Filenames H)
    (th : list (event H)) (e : exn) :
    widths_of H a = Done ws ->
    run_resize a ws d0 = (d1, Done names) ->
    html_done a names d1 th d2 ->
    arg_delete a = true ->
    unlink H d2 (source_file H a) = (d3, Raised e) ->
    run a d0
      (option_events a ++ [resize_call a ws; names_echo names] ++ th
         ++ [CallUnlink (source_file H a)])
      d3 (Raised e)
| RunDone (ws : list Z) (d1 d2 d3 : FS H) (names : Filenames H)
    (th td : list (event H)) :
    widths_of H a = Done ws ->
    run_resize a ws d0 = (d1, Done names) ->
    html_done a names d1 th d2 ->
    delete_done a d2 td d3 ->
    run a d0
      (option_events a ++ [resize_call a ws; names_echo names] ++ th ++ td
         ++ [done_echo])
      d3 (Done true).

End Runs.

(** The sample machine with a source that cannot be removed: every unlink
    fails. *)
Definition locked_host : Host := {|
  FS := gmap string string;
  Filenames := list string;
  app_name := app_name Sample.host;
  app_version := app_version Sample.host;
  int_max_str_digits := int_max_str_digits Sample.host;
  Path := Sample.posix_path;
  str_filenames := Sample.repr_list;
  resize_image := resize_image Sample.host;
  make_html := make_html Sample.host;
  unlink := fun d file => (d, Raised (OSError "PermissionError"))
|}.

(** Did [int()] refuse the text for its number of digits?  CPython counts
    the digits while it scans them and raises the error about the limit,
    whose message quotes no text, before it looks at what follows the
    digits; every other refusal is the error about an invalid literal,
    whose message quotes the text. *)
Definition over_digit_cap (max_str_digits : Z) (s : string) : bool :=
  let (sign, body) := Py.read_sign (Py.skip_space s) in
  match body with
  | EmptyString => false
  | String c _ =>
      if Py.is_underscore c then false
      else
        match Py.scan_digits body false 0 0 with
        | None => false
        | Some (v, nd, rest) =>
            if nd =? 0 then false else Py.too_many_digits max_str_digits nd
        end
  end.

(** ** Reading a tag back

    The attributes of a text of the form [<img name="value" ...>]: after
    the opening, each attribute is a blank, a name up to the equals sign
    and a value between double quotes; the closing bracket ends the text.
    Anything else is no single [img] element. *)
Inductive reading : Type :=
| BetweenAttrs
| InName (name : string)
| AfterEquals (name : string)
| InValue (name value : string).

Fixpoint read_attrs (s : string) (st : reading) (acc : list (string * string))
  : option (list (string * string)) :=
  match s with
  | EmptyString => None
  | String c s' =>
      match st with
      | BetweenAttrs =>
          if Ascii.eqb c ">"
          then match s' with EmptyString => Some (rev acc) | String _ _ => None end
          else if Ascii.eqb c " " then read_attrs s' (InName EmptyString) acc
          else None
      | InName n =>
          if Ascii.eqb c "=" then read_attrs s' (AfterEquals n) acc
          else read_attrs s' (InName (n +:+ String c EmptyString)) acc
      | AfterEquals n =>
          if Ascii.eqb c "034" then read_attrs s' (InValue n EmptyString) acc
          else None
      | InValue n v =>
          if Ascii.eqb c "034" then read_attrs s' BetweenAttrs ((n, v) :: acc)
          else read_attrs s' (InValue n (v +:+ String c EmptyString)) acc
      end
  end.

Definition read_img (s : string) : option (list (string * string)) :=
  match s with
  | String "<" (String "i" (String "m" (String "g" rest))) =>
      read_attrs rest BetweenAttrs []
  | _ => None
  end.

(** An attribute whose name has no equals sign and whose value has no
    double quote is read back as it was rendered. *)
Definition plain_attr (kv : string * string) : Prop :=
  Py.contains "=" (fst kv) = false /\ Py.contains Py.dquote (snd kv) = false.

(** The value of the first attribute of a name. *)
Fixpoint attr_value (name : string) (attrs : list (string * string))
  : option string :=
  match attrs with
  | [] => None
  | (k, v) :: rest => if String.eqb k name then Some v else attr_value name rest
  end.

(** What the builder's contract says of the returned text, for every list
    of file names that is not empty and whatever the other arguments: it
    is one [img] element, its [srcset] has as many comma-separated entries
    as there are file names, and without [lazy] it has no attribute named
    loading. *)
Definition img_tag_claim
  (static_helper : option string -> string -> string) : Prop :=
  forall (orig_img_file : string) (filenames : list string)
         (classes : option string) (img_sizes : string) (lazy : bool)
         (alt : string) (dir : option string) (flask : bool),
    filenames <> [] ->
    exists html attrs srcset,
      Utils.make_html static_helper orig_img_file filenames classes img_sizes
        lazy alt dir flask = Done html
      /\ read_img html = Some attrs
      /\ attr_value "srcset" attrs = Some srcset
      /\ length (Py.split Py.comma srcset) = length filenames
      /\ (lazy = false -> ~ In "loading" (map fst attrs)).

(** How often a character occurs in a text. *)
Fixpoint count_char (c : ascii) (s : string) : nat :=
  match s with
  | EmptyString => O
  | String a s' => if Ascii.eqb a c then S (count_char c s') else count_char c s'
  end.

(** The characters an integer literal is made of: digits, white space,
    the underscore and the two signs. *)
Definition literal_char (c : ascii) : bool :=
  Py.is_digit c || Py.is_space c || Py.is_underscore c
  || (Py.code c =? 43) || (Py.code c =? 45).

Fixpoint all_chars (p : ascii -> bool) (s : string) : bool :=
  match s with
  | EmptyString => true
  | String c s' => p c && all_chars p s'
  end.

(* ===================================================================== *)
(** * The command-line layer *)
(* ===================================================================== *)

Section MainFacts.

Context {H : Host}.

Lemma echo_options_run (a : ImageArgs) (w : World H) :
  echo_options a w = (mkWorld (fs w) (trace w ++ option_events a), Done tt).
Proof.
  unfold echo_options, option_events, bind, secho, echo, log; simpl.
  rewrite <- !app_assoc. reflexivity.
Qed.

Lemma int_each_raises (m : Z) (toks : list string) :
  (exists tok, In tok toks /\ Py.int m tok = None) ->
  exists bad, In bad toks /\ Py.int m bad = None
              /\ int_each m toks = Raised (ValueError bad).
Proof.
  induction toks as [|t ts IH]; intros [tok [Hin Hnone]].
  - destruct Hin.
  - simpl. destruct (Py.int m t) as [z|] eqn:Ht.
    + destruct Hin as [->|Hin]; [congruence|].
      destruct IH as [bad [Hb [Hn Hr]]]; [eauto|].
      exists bad. rewrite Hr. auto.
    + exists t. auto.
Qed.

Lemma int_each_done (m : Z) (toks : list string) (zs : list Z) :
  int_each m toks = Done zs <-> Forall2 (fun t z => Py.int m t = Some z) toks zs.
Proof.
  revert zs. induction toks as [|t ts IH]; intros zs; simpl.
  - split; intros Hd.
    + inversion Hd. constructor.
    + inversion Hd. reflexivity.
  - split.
    + destruct (Py.int m t) as [z|] eqn:Ht; [|discriminate].
      destruct (int_each m ts) as [zs'|e] eqn:Hts; [|discriminate].
      intros Hd. inversion Hd; subst. constructor; [exact Ht|].
      apply IH. reflexivity.
    + intros Hd. inversion Hd as [|t' z ts' zs' Ht Hrest]; subst.
      rewrite Ht. apply IH in Hrest. rewrite Hrest. reflexivity.
Qed.

Lemma image_parse_error (a : ImageArgs) (w : World H) (e : exn) :
  widths_of H a = Raised e ->
  image a w = (mkWorld (fs w) (trace w ++ option_events a), Raised e).
Proof.
  intros Hp. unfold image, bind. rewrite echo_options_run.
  unfold of_outcome. unfold widths_of in Hp. rewrite Hp. reflexivity.
Qed.

Lemma image_resize_error (a : ImageArgs) (w : World H) (ws : list Z)
  (d1 : FS H) (e : exn) :
  widths_of H a = Done ws ->
  run_resize a ws (fs w) = (d1, Raised e) ->
  image a w
  = (mkWorld d1 (trace w ++ option_events a ++ [resize_call a ws]), Raised e).
Proof.
  intros Hp Hr. unfold image, bind. rewrite echo_options_run.
  unfold of_outcome. unfold widths_of in Hp. rewrite Hp.
  unfold call; simpl. unfold run_resize, source_file in Hr. rewrite Hr.
  rewrite <- app_assoc. reflexivity.
Qed.

Lemma image_html_error (a : ImageArgs) (w : World H) (ws : list Z)
  (d1 d2 : FS H) (names : Filenames H) (e : exn) :
  arg_html a = true ->
  widths_of H a = Done ws ->
  run_resize a ws (fs w) = (d1, Done names) ->
  run_make_html a names d1 = (d2, Raised e) ->
  image a w
  = (mkWorld d2 (trace w ++ option_events a
                   ++ [resize_call a ws; names_echo names; html_call a names]),
     Raised e).
Proof.
  intros Hh Hp Hr Hm. unfold image, bind. rewrite echo_options_run.
  generalize (@option_events H a); intros opts.
  unfold of_outcome. unfold widths_of in Hp. rewrite Hp.
  unfold call, echo, log; simpl. unfold run_resize, source_file in Hr.
  rewrite Hr. simpl. rewrite Hh.
  unfold run_make_html, source_file in Hm. unfold bind, call; simpl.
  rewrite Hm. rewrite <- !app_assoc. reflexivity.
Qed.

(** Once the widths parse, the resizer is called with the parsed list and
    with the options as given. *)
Lemma image_reaches_resize (a : ImageArgs) (w : World H) (ws : list Z) :
  widths_of H a = Done ws ->
  exists rest, added a w (option_events a ++ resize_call a ws :: rest).
Proof.
  intros Hp. unfold added, image, bind. rewrite echo_options_run.
  generalize (@option_events H a); intros opts.
  unfold of_outcome. unfold widths_of in Hp. rewrite Hp.
  unfold call, echo, log; simpl.
  fold (source_file H a). fold (run_resize a ws (fs w)). fold (@resize_call H a ws).
  destruct (run_resize a ws (fs w)) as [d1 [names|e]]; simpl.
  - destruct (arg_html a); simpl.
    + unfold bind, call; simpl.
      fold (run_make_html a names d1).
      destruct (run_make_html a names d1) as [d2 [s|e]]; simpl.
      * destruct (arg_delete a); simpl.
        -- unfold bind, call; simpl.
           destruct (unlink H d2 (source_file H a)) as [d3 [u|e]]; simpl;
             rewrite <- !app_assoc; simpl; eexists; reflexivity.
        -- unfold ret; simpl. rewrite <- !app_assoc; simpl.
           eexists; reflexivity.
      * rewrite <- !app_assoc; simpl. eexists; reflexivity.
    + unfold ret at 1; simpl. destruct (arg_delete a); simpl.
      * unfold bind, call; simpl.
        destruct (unlink H d1 (source_file H a)) as [d3 [u|e]]; simpl;
          rewrite <- !app_assoc; simpl; eexists; reflexivity.
      * unfold ret; simpl. rewrite <- !app_assoc; simpl.
        eexists; reflexivity.
  - rewrite <- !app_assoc; simpl. eexists; reflexivity.
Qed.

Lemma option_events_console (a : ImageArgs) :
  forallb (fun e => negb (is_io e)) (@option_events H a) = true.
Proof. reflexivity. Qed.

Lemma option_events_no_unlink (a : ImageArgs) :
  existsb is_unlink (@option_events H a) = false.
Proof. reflexivity. Qed.

(** A run that unlinks has parsed the widths, resized without error and,
    when HTML was asked for, built the tag without error; the unlink
    comes after the resize call. *)
Lemma image_unlink_inv (a : ImageArgs) (w : World H) (t : list (event H)) :
  added a w t ->
  existsb is_unlink t = true ->
  arg_delete a = true /\
  exists ws d1 names,
    widths_of H a = Done ws /\
    run_resize a ws (fs w) = (d1, Done names) /\
    (arg_html a = true ->
     exists d2 s, run_make_html a names d1 = (d2, Done s)) /\
    exists t1 t2,
      t = option_events a ++ resize_call a ws :: t1
            ++ CallUnlink (source_file H a) :: t2.
Proof.
  unfold added, image, bind. rewrite echo_options_run.
  pose proof (option_events_no_unlink a) as Hopts.
  revert Hopts. generalize (@option_events H a); intros opts Hopts.
  unfold of_outcome. fold (widths_of H a).
  destruct (widths_of H a) as [ws|e]; simpl.
  2:{ intros Ht Hu. apply app_inv_head in Ht. subst t. congruence. }
  unfold call, echo, log; simpl.
  fold (source_file H a). fold (run_resize a ws (fs w)).
  fold (@resize_call H a ws).
  destruct (run_resize a ws (fs w)) as [d1 [names|e]] eqn:Hr; simpl.
  2:{ rewrite <- app_assoc. intros Ht Hu. apply app_inv_head in Ht. subst t.
      rewrite existsb_app in Hu. rewrite Hopts in Hu. discriminate. }
  destruct (arg_html a); simpl.
  - unfold bind, call; simpl. fold (run_make_html a names d1).
    destruct (run_make_html a names d1) as [d2 [s|e]] eqn:Hm; simpl.
    2:{ rewrite <- !app_assoc. intros Ht Hu. apply app_inv_head in Ht.
        subst t. rewrite existsb_app in Hu. rewrite Hopts in Hu.
        discriminate. }
    destruct (arg_delete a); simpl.
    + unfold bind, call; simpl.
      destruct (unlink H d2 (source_file H a)) as [d3 [u|e]]; simpl;
        rewrite <- !app_assoc; intros Ht Hu; apply app_inv_head in Ht;
        subst t; (split; [reflexivity|]);
        exists ws, d1, names;
        (split; [reflexivity|]); (split; [exact Hr|]);
        (split; [intros _; eexists; eexists; exact Hm|]);
        (eexists (_ :: _ :: _ :: nil); eexists; simpl; reflexivity).
    + unfold ret; simpl. rewrite <- !app_assoc. intros Ht Hu.
      apply app_inv_head in Ht. subst t.
      rewrite existsb_app in Hu. rewrite Hopts in Hu. discriminate.
  - unfold ret at 1; simpl. destruct (arg_delete a); simpl.
    + unfold bind, call; simpl.
      destruct (unlink H d1 (source_file H a)) as [d3 [u|e]]; simpl;
        rewrite <- !app_assoc; intros Ht Hu; apply app_inv_head in Ht;
        subst t; (split; [reflexivity|]);
        exists ws, d1, names;
        (split; [reflexivity|]); (split; [exact Hr|]);
        (split; [discriminate|]);
        (eexists (_ :: nil); eexists; simpl; reflexivity).
    + unfold ret; simpl. rewrite <- !app_assoc. intros Ht Hu.
      apply app_inv_head in Ht. subst t.
      rewrite existsb_app in Hu. rewrite Hopts in Hu. discriminate.
Qed.

End MainFacts.

(* --------------------------------------------------------------------- *)
(** ** Malformed widths *)

(** C3: when one of the comma-separated tokens of the widths text is no
    integer literal, [image] raises [ValueError] (the specification's
    ArgumentError) on the first such token while it parses the widths; up
    to then it has only written the thirteen option lines to the console:
    the disk is untouched and neither the resizer, the HTML builder nor
    the unlink has been called. *)
Theorem malformed_widths_raise_before_io
  (H : Host) (a : ImageArgs) (w : World H) :
  (exists tok, In tok (Py.split Py.comma (arg_widths a))
               /\ Py.int (int_max_str_digits H) tok = None) ->
  exists bad,
    In bad (Py.split Py.comma (arg_widths a))
    /\ Py.int (int_max_str_digits H) bad = None
    /\ image a w
       = (mkWorld (fs w) (trace w ++ option_events a), Raised (ValueError bad))
    /\ forallb (fun e => negb (is_io e)) (@option_events H a) = true.
Proof.
  intros Hex.
  destruct (int_each_raises _ _ Hex) as [bad [Hin [Hnone Hraise]]].
  exists bad. repeat split; auto.
  apply image_parse_error. exact Hraise.
Qed.

Lemma malformed_widths_witness :
  (exists tok, In tok (Py.split Py.comma "600,abc")
               /\ Py.int 4300 tok = None)
  /\ exists bad,
       image (Sample.args "600,abc" "webp" true true)
             (Sample.start Sample.host Sample.disk)
       = (@mkWorld Sample.host Sample.disk
            (option_events (Sample.args "600,abc" "webp" true true)),
          Raised (ValueError bad)).
Proof.
  assert (Hex : exists tok, In tok (Py.split Py.comma "600,abc")
                            /\ Py.int 4300 tok = None).
  { exists "abc". split; [right; left; reflexivity | reflexivity]. }
  split; [exact Hex|].
  destruct (malformed_widths_raise_before_io Sample.host
              (Sample.args "600,abc" "webp" true true)
              (Sample.start Sample.host Sample.disk) Hex)
    as [bad [_ [_ [Hrun _]]]].
  exists bad. exact Hrun.
Defined.

(* --------------------------------------------------------------------- *)
(** ** The version flag *)

(** C7: with the version flag set, [app] writes one line, the application
    name and the version, and ends with [typer.Exit]: whatever command was
    named, no resize, no HTML generation and no deletion happens and the
    disk is untouched. *)
Theorem version_flag_short_circuits
  (H : Host) (command : option ImageArgs) (w : World H) :
  app true command w
  = (mkWorld (fs w) (trace w ++ [Echo (app_name H +:+ " v" +:+ app_version H)]),
     Raised (Exit 0))
  /\ _version_callback (Some true) w
     = (mkWorld (fs w) (trace w ++ [Echo (app_name H +:+ " v" +:+ app_version H)]),
        Raised (Exit 0)).
Proof. split; reflexivity. Qed.

(* --------------------------------------------------------------------- *)
(** ** Deletion of the source *)

(** C4: with [--delete], a resize that raises ends the run at once: the
    exception goes through, the disk is left as the failed resize left it
    and no unlink is among the steps performed; and in every run that does
    unlink, the widths were parsed, the resizer returned its names without
    error, and the unlink of the source comes after that call. *)
Theorem delete_only_after_resize
  (H : Host) (a : ImageArgs) (w : World H) :
  arg_delete a = true ->
  (forall ws d1 e,
      widths_of H a = Done ws ->
      run_resize a ws (fs w) = (d1, Raised e) ->
      image a w
      = (mkWorld d1 (trace w ++ option_events a ++ [resize_call a ws]), Raised e)
      /\ existsb (@is_unlink H) (option_events a ++ [resize_call a ws]) = false)
  /\ (forall t,
        added a w t ->
        existsb is_unlink t = true ->
        exists ws d1 names t1 t2,
          widths_of H a = Done ws
          /\ run_resize a ws (fs w) = (d1, Done names)
          /\ t = option_events a ++ resize_call a ws :: t1
                   ++ CallUnlink (source_file H a) :: t2).
Proof.
  intros _. split.
  - intros ws d1 e Hp Hr. split.
    + apply image_resize_error; assumption.
    + reflexivity.
  - intros t Ht Hu.
    destruct (image_unlink_inv a w t Ht Hu)
      as [_ [ws [d1 [names [Hp [Hr [_ [t1 [t2 Heq]]]]]]]]].
    exists ws, d1, names, t1, t2. auto.
Qed.

(** C9: when the HTML tag is asked for and building it raises after a
    resize that succeeded, the run ends there: the exception goes through
    and no unlink is performed, also with [--delete]; in every run that
    does unlink, the widths were parsed, the resize returned without error
    and, when HTML was asked for, the builder returned without error. *)
Theorem html_failure_keeps_source
  (H : Host) (a : ImageArgs) (w : World H) :
  (arg_html a = true ->
   forall ws d1 names d2 e,
     widths_of H a = Done ws ->
     run_resize a ws (fs w) = (d1, Done names) ->
     run_make_html a names d1 = (d2, Raised e) ->
     image a w
     = (mkWorld d2 (trace w ++ option_events a
                      ++ [resize_call a ws; names_echo names; html_call a names]),
        Raised e)
     /\ existsb (@is_unlink H)
          (option_events a
             ++ [resize_call a ws; names_echo names; html_call a names]) = false)
  /\ (forall t,
        added a w t ->
        existsb is_unlink t = true ->
        arg_delete a = true
        /\ exists ws d1 names,
             widths_of H a = Done ws
             /\ run_resize a ws (fs w) = (d1, Done names)
             /\ (arg_html a = true ->
                 exists d2 s, run_make_html a names d1 = (d2, Done s))).
Proof.
  split.
  - intros Hh ws d1 names d2 e Hp Hr Hm. split.
    + apply image_html_error with (d1 := d1); assumption.
    + reflexivity.
  - intros t Ht Hu.
    destruct (image_unlink_inv a w t Ht Hu)
      as [Hd [ws [d1 [names [Hp [Hr [Hm _]]]]]]].
    split; [exact Hd|]. exists ws, d1, names. auto.
Qed.

(* --------------------------------------------------------------------- *)
(** ** The format option *)

(** C8, as amended: [--fmt] is free text (by default webp): [image] makes
    no check on it, and whenever the widths parse the resizer is called
    with the value exactly as given. *)
Theorem fmt_forwarded_unchecked
  (H : Host) (a : ImageArgs) (w : World H) (ws : list Z) :
  widths_of H a = Done ws ->
  (exists rest,
      added a w
        (option_events a
           ++ CallResize (source_file H a) ws (arg_fmt a) (arg_qual a)
                (arg_lower a) (arg_dashes a) :: rest))
  /\ forall img, arg_fmt (default_args img) = "webp".
Proof.
  intros Hp. split; [|reflexivity].
  destruct (image_reaches_resize a w ws Hp) as [rest Hrest].
  exists rest. exact Hrest.
Qed.

Lemma fmt_forwarded_unchecked_witness :
  widths_of Sample.host (Sample.args "400,800" "png" true true) = Done [400; 800]
  /\ exists rest,
       added (Sample.args "400,800" "png" true true)
         (Sample.start Sample.host Sample.disk)
         (option_events (Sample.args "400,800" "png" true true)
            ++ CallResize "img/photo_one.JPG" [400; 800] "png" 100 true true
                 :: rest).
Proof.
  split; [reflexivity|].
  destruct (fmt_forwarded_unchecked Sample.host
              (Sample.args "400,800" "png" true true)
              (Sample.start Sample.host Sample.disk) [400; 800] eq_refl)
    as [[rest Hrest] _].
  exists rest. exact Hrest.
Defined.

(** C8, as stated, fails: on the sample machine the value png, outside jpg
    and webp, reaches the resizer. *)
Lemma fmt_enumeration_counterexample :
  ~ cli_rejects_unlisted_fmt Sample.host.
Proof.
  intros Hc.
  specialize (Hc (Sample.args "400,800" "png" true true)
                 (Sample.start Sample.host Sample.disk)
                 (trace (fst (image (Sample.args "400,800" "png" true true)
                                (Sample.start Sample.host Sample.disk))))).
  assert (Hout : ~ In "png" ["jpg"; "webp"]).
  { intros [Hin|[Hin|[]]]; discriminate Hin. }
  specialize (Hc Hout eq_refl).
  vm_compute in Hc. discriminate Hc.
Qed.

Lemma delete_only_after_resize_witness :
  arg_delete Sample.scenario = true
  /\ widths_of Sample.full_disk_host Sample.scenario = Done [400; 800]
  /\ snd (image Sample.scenario (Sample.start Sample.full_disk_host Sample.disk))
     = Raised EncodeError
  /\ fs (fst (image Sample.scenario
                (Sample.start Sample.full_disk_host Sample.disk)))
     = <[ "img/photo-one-400.webp" := "webp:400:pixels" ]> Sample.disk
  /\ fs (fst (image Sample.scenario
                (Sample.start Sample.full_disk_host Sample.disk)))
       !! "img/photo_one.JPG" = Some "pixels".
Proof.
  split; [reflexivity|]. split; [reflexivity|].
  destruct (delete_only_after_resize Sample.full_disk_host Sample.scenario
              (Sample.start Sample.full_disk_host Sample.disk) eq_refl)
    as [Hfail _].
  destruct (Hfail [400; 800]
              (<[ "img/photo-one-400.webp" := "webp:400:pixels" ]> Sample.disk)
              EncodeError eq_refl)
    as [Hrun _].
  { vm_compute. reflexivity. }
  rewrite Hrun. split; [reflexivity|]. split; [reflexivity|].
  vm_compute. reflexivity.
Defined.

Lemma html_failure_keeps_source_witness :
  arg_html Sample.scenario = true
  /\ arg_delete Sample.scenario = true
  /\ snd (image Sample.scenario
            (Sample.start Sample.broken_html_host Sample.disk))
     = Raised FormatError
  /\ existsb is_unlink
       (trace (fst (image Sample.scenario
                      (Sample.start Sample.broken_html_host Sample.disk))))
     = false
  /\ fs (fst (image Sample.scenario
                (Sample.start Sample.broken_html_host Sample.disk)))
       !! "img/photo_one.JPG" = Some "pixels".
Proof.
  split; [reflexivity|]. split; [reflexivity|].
  destruct (html_failure_keeps_source Sample.broken_html_host Sample.scenario
              (Sample.start Sample.broken_html_host Sample.disk))
    as [Hfail _].
  destruct (Hfail eq_refl [400; 800]
              (fst (@run_resize Sample.broken_html_host Sample.scenario [400; 800] Sample.disk))
              ["photo-one-400.webp"; "photo-one-800.webp"]
              (fst (@run_resize Sample.broken_html_host Sample.scenario [400; 800] Sample.disk))
              FormatError eq_refl)
    as [Hrun Hno].
  { vm_compute. reflexivity. }
  { vm_compute. reflexivity. }
  rewrite Hrun. split; [reflexivity|]. split; [exact Hno|].
  vm_compute. reflexivity.
Defined.

(* ===================================================================== *)
(** * Text: characters, decimal digits, splitting *)
(* ===================================================================== *)

Lemma code_chr (n : Z) : 0 <= n < 256 -> Py.code (Py.chr n) = n.
Proof.
  intros Hn. unfold Py.code, Py.chr.
  rewrite N_ascii_embedding by lia. lia.
Qed.


Lemma chr_code (c : ascii) : Py.chr (Py.code c) = c.
Proof.
  unfold Py.code, Py.chr. rewrite N2Z.id. apply ascii_N_embedding.
Qed.

Lemma code_digit_char (d : Z) :
  0 <= d < 10 -> Py.code (Py.digit_char d) = 48 + d.
Proof. intros Hd. unfold Py.digit_char. apply code_chr. lia. Qed.

Lemma is_digit_digit_char (d : Z) :
  0 <= d < 10 -> Py.is_digit (Py.digit_char d) = true.
Proof.
  intros Hd. unfold Py.is_digit. rewrite code_digit_char by assumption.
  apply andb_true_intro. split; apply Z.leb_le; lia.
Qed.

Lemma digit_val_digit_char (d : Z) :
  0 <= d < 10 -> Py.digit_val (Py.digit_char d) = d.
Proof.
  intros Hd. unfold Py.digit_val. rewrite code_digit_char by assumption. lia.
Qed.

(** Case analysis on every integer comparison of the goal. *)
Ltac zcases :=
  repeat match goal with
    | |- context [?a <=? ?b] => destruct (Z.leb_spec a b)
    | |- context [?a <? ?b] => destruct (Z.ltb_spec a b)
    | |- context [?a =? ?b] => destruct (Z.eqb_spec a b)
    end;
  simpl; try reflexivity; try discriminate; try lia.

(** A digit is no white space, no underscore and no sign. *)
Lemma digit_is_plain (c : ascii) :
  Py.is_digit c = true ->
  Py.is_space c = false /\ Py.is_underscore c = false
  /\ (Py.code c =? 43) = false /\ (Py.code c =? 45) = false.
Proof.
  unfold Py.is_digit, Py.is_space, Py.is_underscore.
  generalize (Py.code c); intros n. zcases; intros; repeat split; zcases.
Qed.

Lemma space_is_plain (c : ascii) :
  Py.is_space c = true ->
  Py.is_digit c = false /\ Py.is_underscore c = false.
Proof.
  unfold Py.is_digit, Py.is_space, Py.is_underscore.
  generalize (Py.code c); intros n. zcases; intros; repeat split; zcases.
Qed.

(** ** Decimal digits *)

Lemma append_nil (s : string) : EmptyString +:+ s = s.
Proof. reflexivity. Qed.

Lemma append_cons (a : ascii) (s t : string) :
  String a s +:+ t = String a (s +:+ t).
Proof. reflexivity. Qed.

Ltac sapp := rewrite ?append_cons, ?append_nil.

Lemma append_snoc (s : string) (c : ascii) (rest : string) :
  (s +:+ Py.str1 c) +:+ rest = s +:+ String c rest.
Proof.
  induction s as [|a s IH]; sapp; [reflexivity|]. rewrite IH. reflexivity.
Qed.

Lemma append_empty_r (s : string) : s +:+ EmptyString = s.
Proof.
  induction s as [|a s IH]; sapp; [reflexivity|]. rewrite IH. reflexivity.
Qed.

Lemma append_assoc (s1 s2 s3 : string) :
  (s1 +:+ s2) +:+ s3 = s1 +:+ (s2 +:+ s3).
Proof.
  induction s1 as [|a s IH]; sapp; [reflexivity|]. rewrite IH. reflexivity.
Qed.

Lemma all_digits_snoc (s : string) (c : ascii) :
  Utils.all_digits (s +:+ Py.str1 c) = Utils.all_digits s && Py.is_digit c.
Proof.
  induction s as [|a s IH]; sapp; simpl.
  - now rewrite andb_true_r.
  - rewrite IH. now rewrite andb_assoc.
Qed.

Lemma digits_value_snoc (s : string) (c : ascii) (acc : Z) :
  Utils.digits_value acc (s +:+ Py.str1 c)
  = 10 * Utils.digits_value acc s + Py.digit_val c.
Proof.
  revert acc. induction s as [|a s IH]; intros acc; sapp; simpl;
    [reflexivity|].
  apply IH.
Qed.

Lemma snoc_not_empty (s : string) (c : ascii) : s +:+ Py.str1 c <> EmptyString.
Proof. destruct s; sapp; discriminate. Qed.

(** With enough fuel the digit loop prepends a text of decimal digits,
    not empty, of value [n]. *)
Lemma digits_fuel_spec (f : nat) (n : Z) :
  0 <= n < 10 ^ Z.of_nat (S f) ->
  exists ds,
    ds <> EmptyString
    /\ Utils.all_digits ds = true
    /\ Utils.digits_value 0 ds = n
    /\ forall rest, Py.digits_fuel (S f) n rest = ds +:+ rest.
Proof.
  revert n. induction f as [|f IH]; intros n Hn.
  - assert (Hlt : n < 10) by (change (10 ^ Z.of_nat 1) with 10 in Hn; lia).
    exists (Py.str1 (Py.digit_char n)).
    assert (Hmod : n mod 10 = n) by (apply Z.mod_small; lia).
    repeat split.
    + discriminate.
    + simpl. rewrite is_digit_digit_char by lia. reflexivity.
    + simpl. rewrite digit_val_digit_char by lia. lia.
    + intros rest. simpl. rewrite Hmod.
      destruct (n <? 10) eqn:Hc; [reflexivity|].
      apply Z.ltb_ge in Hc. lia.
  - destruct (Z.ltb_spec n 10) as [Hlt|Hge].
    + exists (Py.str1 (Py.digit_char n)).
      assert (Hmod : n mod 10 = n) by (apply Z.mod_small; lia).
      repeat split.
      * discriminate.
      * simpl. rewrite is_digit_digit_char by lia. reflexivity.
      * simpl. rewrite digit_val_digit_char by lia. lia.
      * intros rest. change (Py.digits_fuel (S (S f)) n rest)
          with (let acc' := String (Py.digit_char (n mod 10)) rest in
                if n <? 10 then acc' else Py.digits_fuel (S f) (n / 10) acc').
        simpl. rewrite Hmod.
        destruct (n <? 10) eqn:Hc; [reflexivity|].
        apply Z.ltb_ge in Hc. lia.
    + assert (Hq : 0 <= n / 10 < 10 ^ Z.of_nat (S f)).
      { split; [apply Z.div_pos; lia|].
        apply Z.div_lt_upper_bound; [lia|].
        replace (Z.of_nat (S (S f))) with (Z.succ (Z.of_nat (S f))) in Hn by lia.
        rewrite Z.pow_succ_r in Hn by lia. lia. }
      destruct (IH (n / 10) Hq) as [ds [Hne [Hall [Hval Hrest]]]].
      pose proof (Z.mod_pos_bound n 10 ltac:(lia)) as Hm.
      exists (ds +:+ Py.str1 (Py.digit_char (n mod 10))).
      repeat split.
      * apply snoc_not_empty.
      * rewrite all_digits_snoc, Hall, is_digit_digit_char by lia. reflexivity.
      * rewrite digits_value_snoc, Hval, digit_val_digit_char by lia.
        pose proof (Z.div_mod n 10 ltac:(lia)). lia.
      * intros rest. rewrite append_snoc. rewrite <- Hrest.
        change (Py.digits_fuel (S (S f)) n rest)
          with (let acc' := String (Py.digit_char (n mod 10)) rest in
                if n <? 10 then acc' else Py.digits_fuel (S f) (n / 10) acc').
        simpl. destruct (n <? 10) eqn:Hc; [|reflexivity].
        apply Z.ltb_lt in Hc. lia.
Qed.

Lemma fuel_enough (n : Z) :
  0 <= n -> n < 10 ^ Z.of_nat (S (Z.to_nat (Z.log2 n))).
Proof.
  intros Hn.
  replace (Z.of_nat (S (Z.to_nat (Z.log2 n)))) with (Z.succ (Z.log2 n))
    by (pose proof (Z.log2_nonneg n); lia).
  destruct (Z.eq_dec n 0) as [->|Hnz].
  - reflexivity.
  - pose proof (Z.log2_spec n ltac:(lia)) as [_ Hup].
    eapply Z.lt_le_trans; [exact Hup|].
    apply Z.pow_le_mono_l. pose proof (Z.log2_nonneg n). lia.
Qed.

(** [str(n)] of a natural number is a text of decimal digits, not empty,
    that reads back as [n]. *)
Lemma str_nat_spec (n : Z) :
  0 <= n ->
  Py.str_nat n <> EmptyString
  /\ Utils.all_digits (Py.str_nat n) = true
  /\ Utils.digits_value 0 (Py.str_nat n) = n.
Proof.
  intros Hn.
  destruct (digits_fuel_spec (Z.to_nat (Z.log2 n)) n) as [ds [Hne [Hall [Hval Hrest]]]].
  { split; [exact Hn | apply fuel_enough; exact Hn]. }
  unfold Py.str_nat. rewrite Hrest, append_empty_r. auto.
Qed.


(** ** Reading decimal text back *)

Lemma scan_digits_app (ds rest : string) (pu : bool) (acc nd : Z) :
  Utils.all_digits ds = true ->
  Py.scan_digits (ds +:+ rest) pu acc nd
  = Py.scan_digits rest
      (match ds with EmptyString => pu | String _ _ => false end)
      (Utils.digits_value acc ds) (nd + Z.of_nat (String.length ds)).
Proof.
  revert pu acc nd. induction ds as [|c ds IH]; intros pu acc nd Hall; sapp.
  - simpl. f_equal. lia.
  - simpl in Hall. apply andb_true_iff in Hall. destruct Hall as [Hc Hds].
    simpl Py.scan_digits. rewrite Hc. rewrite IH by exact Hds.
    simpl Utils.digits_value.
    replace (nd + 1 + Z.of_nat (String.length ds))
      with (nd + Z.of_nat (String.length (String c ds)))
      by (simpl String.length; lia).
    destruct ds; reflexivity.
Qed.

Lemma scan_digits_blank (r : string) (acc nd : Z) :
  blank r = true -> Py.scan_digits r false acc nd = Some (acc, nd, r).
Proof.
  destruct r as [|c r]; intros Hb; [reflexivity|].
  simpl in Hb. apply andb_true_iff in Hb. destruct Hb as [Hc _].
  apply space_is_plain in Hc. destruct Hc as [Hd Hu].
  simpl. rewrite Hd, Hu. reflexivity.
Qed.

Lemma skip_space_blank (l s : string) :
  blank l = true -> Py.skip_space (l +:+ s) = Py.skip_space s.
Proof.
  induction l as [|c l IH]; intros Hb; sapp; [reflexivity|].
  simpl in Hb. apply andb_true_iff in Hb. destruct Hb as [Hc Hl].
  simpl. rewrite Hc. apply IH. exact Hl.
Qed.

Lemma skip_space_all_blank (r : string) :
  blank r = true -> Py.skip_space r = EmptyString.
Proof.
  intros Hb. rewrite <- (append_empty_r r).
  rewrite skip_space_blank by exact Hb. reflexivity.
Qed.

(** A text of digits between white space reads as its value. *)
Lemma int_digits (m : Z) (l ds r : string) :
  blank l = true -> blank r = true ->
  ds <> EmptyString -> Utils.all_digits ds = true ->
  Py.too_many_digits m (Z.of_nat (String.length ds)) = false ->
  Py.int m (l +:+ ds +:+ r) = Some (Utils.digits_value 0 ds).
Proof.
  intros Hl Hr Hne Hall Hcap. unfold Py.int.
  rewrite skip_space_blank by exact Hl.
  destruct ds as [|c ds]; [congruence|].
  pose proof Hall as Hall'. simpl in Hall'.
  apply andb_true_iff in Hall'. destruct Hall' as [Hc _].
  destruct (digit_is_plain c Hc) as [Hsp [Hus [Hplus Hminus]]].
  sapp. simpl Py.skip_space. rewrite Hsp.
  unfold Py.read_sign. rewrite Hplus, Hminus. rewrite Hus.
  rewrite <- append_cons. rewrite scan_digits_app by exact Hall.
  rewrite scan_digits_blank by exact Hr.
  replace (0 + Z.of_nat (String.length (String c ds)) =? 0) with false
    by (symmetry; apply Z.eqb_neq; simpl String.length; lia).
  rewrite Z.add_0_l. rewrite Hcap.
  rewrite skip_space_all_blank by exact Hr.
  f_equal; lia.
Qed.

(** The same with a minus sign in front. *)
Lemma int_minus_digits (m : Z) (l ds r : string) :
  blank l = true -> blank r = true ->
  ds <> EmptyString -> Utils.all_digits ds = true ->
  Py.too_many_digits m (Z.of_nat (String.length ds)) = false ->
  Py.int m (l +:+ String (Py.chr 45) ds +:+ r)
  = Some (- Utils.digits_value 0 ds).
Proof.
  intros Hl Hr Hne Hall Hcap. unfold Py.int.
  rewrite skip_space_blank by exact Hl.
  destruct ds as [|c ds]; [congruence|].
  pose proof Hall as Hall'. simpl in Hall'.
  apply andb_true_iff in Hall'. destruct Hall' as [Hc _].
  destruct (digit_is_plain c Hc) as [Hsp [Hus [Hplus Hminus]]].
  sapp. change (Py.skip_space (String (Py.chr 45) (String c (ds +:+ r))))
    with (String (Py.chr 45) (String c (ds +:+ r))).
  change (Py.read_sign (String (Py.chr 45) (String c (ds +:+ r))))
    with (-1, String c (ds +:+ r)).
  cbv beta iota. rewrite Hus.
  rewrite <- append_cons. rewrite scan_digits_app by exact Hall.
  rewrite scan_digits_blank by exact Hr.
  replace (0 + Z.of_nat (String.length (String c ds)) =? 0) with false
    by (symmetry; apply Z.eqb_neq; simpl String.length; lia).
  rewrite Z.add_0_l. rewrite Hcap.
  rewrite skip_space_all_blank by exact Hr.
  f_equal; lia.
Qed.

(** [int(str(z))] is [z], also with white space around. *)
Lemma int_str_int (m z : Z) (l r : string) :
  blank l = true -> blank r = true ->
  Py.too_many_digits m (digit_count z) = false ->
  Py.int m (l +:+ Py.str_int z +:+ r) = Some z.
Proof.
  intros Hl Hr Hcap. unfold digit_count in Hcap. unfold Py.str_int.
  destruct (Z.ltb_spec z 0) as [Hneg|Hpos].
  - destruct (str_nat_spec (- z) ltac:(lia)) as [Hne [Hall Hval]].
    replace (Z.abs z) with (- z) in Hcap by lia.
    rewrite int_minus_digits by assumption. rewrite Hval. f_equal. lia.
  - destruct (str_nat_spec z Hpos) as [Hne [Hall Hval]].
    replace (Z.abs z) with z in Hcap by lia.
    rewrite int_digits by assumption. rewrite Hval. reflexivity.
Qed.

(** ** Splitting and joining *)

Lemma split_not_empty (c : ascii) (s : string) : Py.split c s <> [].
Proof.
  destruct s as [|a s]; simpl; [discriminate|].
  destruct (Ascii.eqb a c); [discriminate|].
  destruct (Py.split c s); discriminate.
Qed.

Lemma split_no_sep (c : ascii) (t : string) :
  Py.contains c t = false -> Py.split c t = [t].
Proof.
  induction t as [|a t IH]; intros Hc; [reflexivity|].
  simpl in Hc. apply orb_false_iff in Hc. destruct Hc as [Ha Ht].
  simpl. rewrite Ha. rewrite IH by exact Ht. reflexivity.
Qed.

Lemma split_app (c : ascii) (t rest : string) :
  Py.contains c t = false ->
  Py.split c (t +:+ String c rest) = t :: Py.split c rest.
Proof.
  induction t as [|a t IH]; intros Hc; sapp.
  - simpl. rewrite Ascii.eqb_refl. reflexivity.
  - simpl in Hc. apply orb_false_iff in Hc. destruct Hc as [Ha Ht].
    simpl. rewrite Ha. rewrite IH by exact Ht. reflexivity.
Qed.

(** Splitting at the separator undoes joining with it, when no piece
    holds the separator. *)
Lemma split_join (c : ascii) (toks : list string) :
  toks <> [] ->
  Forall (fun t => Py.contains c t = false) toks ->
  Py.split c (Py.join (Py.str1 c) toks) = toks.
Proof.
  induction toks as [|t ts IH]; intros Hne Hall; [congruence|].
  inversion Hall as [|t' ts' Ht Hts]; subst.
  destruct ts as [|t2 ts].
  - simpl. apply split_no_sep. exact Ht.
  - change (Py.join (Py.str1 c) (t :: t2 :: ts))
      with (t +:+ Py.str1 c +:+ Py.join (Py.str1 c) (t2 :: ts)).
    unfold Py.str1 at 1. sapp.
    rewrite split_app by exact Ht. rewrite IH; [reflexivity|discriminate|exact Hts].
Qed.

(* --------------------------------------------------------------------- *)
(** ** What the widths option accepts *)

(** C10: the widths option accepts every list of comma-separated tokens
    that [int()] reads, and hands the integers read to the resizer as they
    are: an integer written in decimal, be it zero or negative, is read
    back as itself also with white space around it; the text [600, -5]
    parses to 600 and -5; and once the widths parse, the next step of
    [image] is the call of the resizer with the parsed list, whatever the
    signs of its members. *)
Theorem widths_accept_any_integer (H : Host) :
  (forall (toks : list string) (zs : list Z),
      toks <> [] ->
      Forall (fun t => Py.contains Py.comma t = false) toks ->
      Forall2 (fun t z => Py.int (int_max_str_digits H) t = Some z) toks zs ->
      parse_widths (int_max_str_digits H) (Py.join (Py.str1 Py.comma) toks)
      = Done zs)
  /\ (forall (z : Z) (l r : string),
        blank l = true -> blank r = true ->
        Py.too_many_digits (int_max_str_digits H) (digit_count z) = false ->
        Py.int (int_max_str_digits H) (l +:+ Py.str_int z +:+ r) = Some z)
  /\ parse_widths (int_max_str_digits H) "600, -5" = Done [600; -5]
  /\ (forall (a : ImageArgs) (w : World H) (ws : list Z),
        widths_of H a = Done ws ->
        exists rest, added a w (option_events a ++ resize_call a ws :: rest)).
Proof.
  split; [|split; [|split]].
  - intros toks zs Hne Hsep Hint. unfold parse_widths.
    rewrite split_join by assumption. apply int_each_done. exact Hint.
  - intros z l r Hl Hr Hcap. apply int_str_int; assumption.
  - reflexivity.
  - intros a w ws Hp. apply image_reaches_resize. exact Hp.
Qed.

Lemma widths_accept_any_integer_witness :
  parse_widths 4300 (Py.join "," [" 0"; "-5 "; "1_000"]) = Done [0; -5; 1000]
  /\ Py.int 4300 (" " +:+ Py.str_int (-1400) +:+ " ") = Some (-1400)
  /\ exists rest,
       added (Sample.args "0, -5" "webp" true true)
         (Sample.start Sample.host Sample.disk)
         (option_events (Sample.args "0, -5" "webp" true true)
            ++ CallResize "img/photo_one.JPG" [0; -5] "webp" 100 true true
                 :: rest).
Proof.
  destruct (widths_accept_any_integer Sample.host) as [Hjoin [Hint [_ Hcall]]].
  split; [|split].
  - apply (Hjoin [" 0"; "-5 "; "1_000"] [0; -5; 1000]).
    + discriminate.
    + repeat constructor.
    + repeat constructor.
  - apply (Hint (-1400) " " " "); reflexivity.
  - apply (Hcall (Sample.args "0, -5" "webp" true true)
             (Sample.start Sample.host Sample.disk) [0; -5]).
    reflexivity.
Defined.

(* ===================================================================== *)
(** * The modelled utils *)
(* ===================================================================== *)

(** ** Names *)

Lemma rsplit1_app (c : ascii) (l r : string) :
  Py.contains c r = false ->
  Utils.rsplit1 c (l +:+ String c r) = Some (l, r).
Proof.
  intros Hr.
  assert (Hnone : Utils.rsplit1 c r = None).
  { induction r as [|a r IH]; [reflexivity|].
    simpl in Hr. apply orb_false_iff in Hr. destruct Hr as [Ha Hr].
    simpl. rewrite IH by exact Hr. rewrite Ha. reflexivity. }
  induction l as [|a l IH]; sapp.
  - simpl. rewrite Hnone. rewrite Ascii.eqb_refl. reflexivity.
  - simpl. rewrite IH. reflexivity.
Qed.

Lemma digits_have_no (c : ascii) (ds : string) :
  Py.is_digit c = false ->
  Utils.all_digits ds = true -> Py.contains c ds = false.
Proof.
  intros Hc. induction ds as [|a ds IH]; intros Hall; [reflexivity|].
  simpl in Hall. apply andb_true_iff in Hall. destruct Hall as [Ha Hds].
  simpl. rewrite IH by exact Hds. rewrite orb_false_r.
  apply Ascii.eqb_neq. intros ->. congruence.
Qed.

Lemma supported_cases (fmt : string) :
  Utils.supported fmt = true -> fmt = "jpg" \/ fmt = "webp".
Proof.
  unfold Utils.supported. intros Hs. apply orb_true_iff in Hs.
  destruct Hs as [Hs|Hs]; apply String.eqb_eq in Hs; auto.
Qed.

Lemma supported_no_dot (fmt : string) :
  Utils.supported fmt = true -> Py.contains Utils.dot fmt = false.
Proof.
  intros Hs. destruct (supported_cases fmt Hs) as [-> | ->]; reflexivity.
Qed.

(** The name of a variant carries its width: parsing the name gives the
    width back. *)
Lemma width_of_variant_name (file fmt : string) (lower dashes : bool) (w : Z) :
  0 <= w ->
  Py.contains Utils.dot fmt = false ->
  Utils.width_of (Utils.variant_name file lower dashes fmt w) = Some w.
Proof.
  intros Hw Hfmt. unfold Utils.variant_name, Utils.width_of.
  destruct (str_nat_spec w Hw) as [Hne [Hall Hval]].
  assert (Hstr : Py.str_int w = Py.str_nat w).
  { unfold Py.str_int. destruct (Z.ltb_spec w 0); [lia|reflexivity]. }
  rewrite Hstr.
  set (st := Utils.variant_stem file lower dashes).
  replace (st +:+ Py.str1 Utils.hyphen +:+ Py.str_nat w +:+ Py.str1 Utils.dot +:+ fmt)
    with ((st +:+ String Utils.hyphen (Py.str_nat w)) +:+ String Utils.dot fmt).
  2:{ unfold Py.str1. rewrite !append_assoc. sapp. reflexivity. }
  rewrite rsplit1_app by exact Hfmt.
  rewrite rsplit1_app by (apply digits_have_no; [reflexivity|exact Hall]).
  destruct (Py.str_nat w) as [|c ds] eqn:Hs; [congruence|].
  rewrite Hall, Hval. reflexivity.
Qed.

(** ** The resizer *)

Section ResizerFacts.

Context {Blob Raster : Type}.
Variable decode : Blob -> option Raster.
Variable scale : Raster -> Z -> Raster.
Variable encode : Raster -> string -> Z -> option Blob.
Variable writable : string -> bool.

Lemma write_variants_ok (img : Raster) (file fmt : string) (qual : Z)
  (lower dashes : bool) (widths : list Z) (d : gmap string Blob) :
  (forall w, In w widths -> encode (scale img w) fmt qual <> None) ->
  (forall w, In w widths ->
     writable (Utils.dirpart file +:+ Utils.variant_name file lower dashes fmt w)
     = true) ->
  exists d',
    Utils.write_variants scale encode writable d img file fmt qual lower
      dashes widths
    = (d', Done (Utils.output_names file widths fmt lower dashes)).
Proof.
  revert d. induction widths as [|w ws IH]; intros d Henc Hwr.
  - exists d. reflexivity.
  - simpl.
    destruct (encode (scale img w) fmt qual) as [b|] eqn:Hb.
    2:{ exfalso. apply (Henc w); [left; reflexivity | exact Hb]. }
    rewrite (Hwr w) by (left; reflexivity).
    destruct (IH (<[Utils.dirpart file +:+ Utils.variant_name file lower dashes fmt w := b]> d))
      as [d' Hd'].
    + intros w' Hin. apply Henc. right. exact Hin.
    + intros w' Hin. apply Hwr. right. exact Hin.
    + rewrite Hd'. exists d'. reflexivity.
Qed.

(** A readable source, a supported format, and encodes and writes that
    succeed: the resizer returns the names of the variants, one per
    width, in the order of the widths. *)
Lemma resize_image_ok (d : gmap string Blob) (file : string) (blob : Blob)
  (img : Raster) (widths : list Z) (fmt : string) (qual : Z)
  (lower dashes : bool) :
  d !! file = Some blob ->
  decode blob = Some img ->
  Utils.supported fmt = true ->
  (forall w, In w widths -> encode (scale img w) fmt qual <> None) ->
  (forall w, In w widths ->
     writable (Utils.dirpart file +:+ Utils.variant_name file lower dashes fmt w)
     = true) ->
  exists d',
    Utils.resize_image decode scale encode writable d file widths fmt qual
      lower dashes
    = (d', Done (Utils.output_names file widths fmt lower dashes)).
Proof.
  intros Hfile Himg Hfmt Henc Hwr. unfold Utils.resize_image.
  rewrite Hfile, Himg, Hfmt. apply write_variants_ok; assumption.
Qed.

(** The resizer only adds files: what was on the disk is still there,
    whether the run fails or not. *)
Lemma write_variants_keeps_files (img : Raster) (file fmt : string) (qual : Z)
  (lower dashes : bool) (widths : list Z) (d : gmap string Blob) (p : string) :
  is_Some (d !! p) ->
  is_Some
    (fst (Utils.write_variants scale encode writable d img file fmt qual lower
            dashes widths) !! p).
Proof.
  revert d. induction widths as [|w ws IH]; intros d Hp; simpl; [exact Hp|].
  destruct (encode (scale img w) fmt qual) as [b|]; [|exact Hp].
  destruct (writable _); [|exact Hp].
  specialize (IH (<[Utils.dirpart file +:+ Utils.variant_name file lower dashes fmt w := b]> d)).
  destruct (Utils.write_variants _ _ _ _ _ _ _ _ _ _ _) as [d' [names|e]];
    simpl in *; apply IH; apply lookup_insert_is_Some';
    right; exact Hp.
Qed.

Lemma resize_image_keeps_files (d : gmap string Blob) (file : string)
  (widths : list Z) (fmt : string) (qual : Z) (lower dashes : bool)
  (p : string) :
  is_Some (d !! p) ->
  is_Some
    (fst (Utils.resize_image decode scale encode writable d file widths fmt
            qual lower dashes) !! p).
Proof.
  intros Hp. unfold Utils.resize_image.
  destruct (d !! file) as [blob|]; [|exact Hp].
  destruct (decode blob) as [img|]; [|exact Hp].
  destruct (Utils.supported fmt); [|exact Hp].
  apply write_variants_keeps_files. exact Hp.
Qed.

End ResizerFacts.

(** On the sample machines, with the modelled resizer: when the resize
    raises, the source file is still on the disk at the end of the run. *)
Lemma source_survives_failed_resize (read_only : string) (html_ok : bool)
  (a : ImageArgs) (d d1 : gmap string string) (ws : list Z) (e : exn) :
  is_Some (d !! Sample.posix_path (arg_image a)) ->
  widths_of (Sample.machine read_only html_ok) a = Done ws ->
  @run_resize (Sample.machine read_only html_ok) a ws d = (d1, Raised e) ->
  is_Some
    (fs (fst (image a (Sample.start (Sample.machine read_only html_ok) d)))
       !! Sample.posix_path (arg_image a)).
Proof.
  intros Hsrc Hp Hr.
  rewrite (image_resize_error a (Sample.start (Sample.machine read_only html_ok) d)
             ws d1 e Hp Hr).
  simpl.
  pose proof (resize_image_keeps_files Sample.decode Sample.scale Sample.encode
                (fun p => negb (String.eqb p read_only)) d
                (Sample.posix_path (arg_image a)) ws (arg_fmt a) (arg_qual a)
                (arg_lower a) (arg_dashes a)
                (Sample.posix_path (arg_image a)) Hsrc) as Hkeep.
  unfold run_resize in Hr. simpl in Hr. unfold source_file in Hr. simpl in Hr.
  rewrite Hr in Hkeep. exact Hkeep.
Qed.

Lemma output_names_carry_widths (file fmt : string) (lower dashes : bool)
  (widths : list Z) :
  Forall (fun w => 0 < w) widths ->
  Py.contains Utils.dot fmt = false ->
  Forall2 (fun name w => Utils.width_of name = Some w)
    (Utils.output_names file widths fmt lower dashes) widths.
Proof.
  intros Hpos Hfmt. induction Hpos as [|w ws Hw Hws IH]; simpl.
  - constructor.
  - constructor; [|exact IH].
    apply width_of_variant_name; [lia|exact Hfmt].
Qed.




(** ** Ascending order of widths *)

Lemma width_le_total (a b : string) : width_leq a b \/ width_leq b a.
Proof.
  unfold width_leq, Utils.width_le.
  destruct (Utils.width_of a), (Utils.width_of b); auto.
  destruct (Z.leb_spec z z0); [left; reflexivity|right; apply Z.leb_le; lia].
Qed.

Lemma width_le_trans (a b c : string) :
  width_leq a b -> width_leq b c -> width_leq a c.
Proof.
  unfold width_leq, Utils.width_le.
  destruct (Utils.width_of a), (Utils.width_of b), (Utils.width_of c);
    try discriminate; auto.
  intros H1 H2. apply Z.leb_le in H1. apply Z.leb_le in H2. apply Z.leb_le. lia.
Qed.

Lemma insert_by_width_perm (x : string) (l : list string) :
  Permutation (Utils.insert_by_width x l) (x :: l).
Proof.
  induction l as [|y l IH]; simpl; [reflexivity|].
  destruct (Utils.width_le x y); [reflexivity|].
  rewrite IH. apply perm_swap.
Qed.

Lemma sort_by_width_perm (l : list string) :
  Permutation (Utils.sort_by_width l) l.
Proof.
  induction l as [|x l IH]; simpl; [reflexivity|].
  rewrite insert_by_width_perm. constructor. exact IH.
Qed.

Lemma insert_by_width_sorted (x : string) (l : list string) :
  StronglySorted width_leq l ->
  StronglySorted width_leq (Utils.insert_by_width x l).
Proof.
  induction 1 as [|y l Hl IH Hy]; simpl.
  - repeat constructor.
  - destruct (Utils.width_le x y) eqn:Hxy.
    + constructor; [constructor; assumption|].
      constructor; [exact Hxy|].
      eapply List.Forall_impl; [|exact Hy].
      intros z Hz. eapply width_le_trans; [exact Hxy|exact Hz].
    + constructor; [exact IH|].
      eapply Permutation_Forall.
      * symmetry. apply insert_by_width_perm.
      * constructor; [|exact Hy].
        destruct (width_le_total x y) as [Hc|Hc]; [|exact Hc].
        unfold width_leq in Hc. congruence.
Qed.

Lemma sort_by_width_sorted (l : list string) :
  StronglySorted width_leq (Utils.sort_by_width l).
Proof.
  induction l as [|x l IH]; simpl; [constructor|].
  apply insert_by_width_sorted. exact IH.
Qed.

(** A list already in ascending order is left as it is. *)
Lemma sort_by_width_id (l : list string) :
  StronglySorted width_leq l -> Utils.sort_by_width l = l.
Proof.
  induction 1 as [|x l Hl IH Hx]; [reflexivity|].
  simpl. rewrite IH. destruct l as [|y l']; [reflexivity|].
  simpl. inversion Hx as [|y' l'' Hxy _]; subst.
  unfold width_leq in Hxy. rewrite Hxy. reflexivity.
Qed.

(** In ascending order the last element is a widest one. *)
Lemma sorted_last_widest (l : list string) (m : string) :
  StronglySorted width_leq l ->
  last l = Some m ->
  Forall (fun x => width_leq x m) l.
Proof.
  induction 1 as [|x l Hl IH Hx]; intros Hlast; [constructor|].
  destruct l as [|y l'].
  - simpl in Hlast. injection Hlast as ->. constructor; [|constructor].
    unfold width_leq, Utils.width_le. destruct (Utils.width_of m); [|reflexivity].
    apply Z.leb_refl.
  - assert (Hlast' : last (y :: l') = Some m) by exact Hlast.
    specialize (IH Hlast'). constructor; [|exact IH].
    assert (Hin : In m (y :: l')).
    { clear -Hlast'. revert y Hlast'. induction l' as [|z l' IHl]; intros y Hl.
      - simpl in Hl. injection Hl as ->. left. reflexivity.
      - right. apply (IHl z). exact Hl. }
    rewrite List.Forall_forall in Hx. apply Hx. exact Hin.
Qed.

Lemma sorted_widths_ascend (l : list string) :
  StronglySorted width_leq l ->
  Forall carries_width l ->
  StronglySorted Z.le
    (map (fun f => match Utils.width_of f with Some w => w | None => 0 end) l).
Proof.
  induction 1 as [|x l Hl IH Hx]; intros Hall; simpl; [constructor|].
  inversion Hall as [|x' l' Hcx Hcl]; subst.
  constructor; [apply IH; exact Hcl|].
  apply List.Forall_map.
  rewrite List.Forall_forall in Hx, Hcl. apply List.Forall_forall. intros y Hy.
  specialize (Hx y Hy). specialize (Hcl y Hy).
  unfold width_leq, Utils.width_le, carries_width in *.
  destruct (Utils.width_of x); [|congruence].
  destruct (Utils.width_of y); [|congruence].
  apply Z.leb_le. exact Hx.
Qed.

(* --------------------------------------------------------------------- *)
(** ** The resizer's contract *)

(** C1: for a valid width list (not empty, positive widths) and a run in
    which nothing fails (the source is readable as an image, the format
    is supported, every encode and every write succeeds), the resizer
    returns exactly as many file names as there are widths, and in the
    order of the widths: the name at each position carries the width at
    that position. *)
Theorem resize_returns_one_name_per_width
  {Blob Raster : Type} (decode : Blob -> option Raster)
  (scale : Raster -> Z -> Raster) (encode : Raster -> string -> Z -> option Blob)
  (writable : string -> bool) (d : gmap string Blob) (file : string)
  (blob : Blob) (img : Raster) (widths : list Z) (fmt : string) (qual : Z)
  (lower dashes : bool) :
  Utils.valid_widths widths ->
  d !! file = Some blob ->
  decode blob = Some img ->
  Utils.supported fmt = true ->
  (forall w, In w widths -> encode (scale img w) fmt qual <> None) ->
  (forall w, In w widths ->
     writable (Utils.dirpart file +:+ Utils.variant_name file lower dashes fmt w)
     = true) ->
  exists d' names,
    Utils.resize_image decode scale encode writable d file widths fmt qual
      lower dashes = (d', Done names)
    /\ length names = length widths
    /\ Forall2 (fun name w => Utils.width_of name = Some w) names widths.
Proof.
  intros [_ Hpos] Hfile Himg Hfmt Henc Hwr.
  destruct (resize_image_ok decode scale encode writable d file blob img
              widths fmt qual lower dashes Hfile Himg Hfmt Henc Hwr)
    as [d' Hrun].
  exists d', (Utils.output_names file widths fmt lower dashes).
  split; [exact Hrun|]. split.
  - unfold Utils.output_names. apply length_map.
  - apply output_names_carry_widths; [exact Hpos|].
    apply supported_no_dot. exact Hfmt.
Qed.

Lemma resize_returns_one_name_per_width_witness :
  Utils.valid_widths [400; 800]
  /\ exists d' names,
       Utils.resize_image Sample.decode Sample.scale Sample.encode
         (fun _ => true) Sample.disk "img/photo_one.JPG" [400; 800] "webp"
         100 true true = (d', Done names)
       /\ length names = 2%nat
       /\ Forall2 (fun name w => Utils.width_of name = Some w) names [400; 800].
Proof.
  assert (Hv : Utils.valid_widths [400; 800]).
  { split; [discriminate|]. repeat constructor. }
  split; [exact Hv|].
  apply (resize_returns_one_name_per_width Sample.decode Sample.scale
           Sample.encode (fun _ => true) Sample.disk "img/photo_one.JPG"
           "pixels" ("pixels", 0) [400; 800] "webp" 100 true true Hv).
  - reflexivity.
  - reflexivity.
  - reflexivity.
  - intros w _. discriminate.
  - intros w _. reflexivity.
Defined.



(* --------------------------------------------------------------------- *)
(** ** The HTML builder's contract *)

(** C5: the builder signals FormatError exactly when the list of file names
    is empty; on every list that is not empty it returns an HTML text, and
    it signals no other error. *)
Theorem make_html_fails_iff_empty
  (static_helper : option string -> string -> string) (orig_img_file : string)
  (filenames : list string) (classes : option string) (img_sizes : string)
  (lazy : bool) (alt : string) (dir : option string) (flask : bool) :
  (Utils.make_html static_helper orig_img_file filenames classes img_sizes
     lazy alt dir flask = Raised FormatError
   <-> filenames = [])
  /\ (filenames <> [] ->
      exists html,
        Utils.make_html static_helper orig_img_file filenames classes
          img_sizes lazy alt dir flask = Done html)
  /\ (forall e,
        Utils.make_html static_helper orig_img_file filenames classes
          img_sizes lazy alt dir flask = Raised e ->
        e = FormatError).
Proof.
  destruct filenames as [|f fs]; simpl.
  - split; [split; reflexivity|]. split; [congruence|].
    intros e He. congruence.
  - split; [split; discriminate|]. split; [eauto|].
    intros e He. discriminate He.
Qed.

Lemma make_html_fails_iff_empty_witness :
  (exists html,
      Utils.make_html Sample.flask_helper "img/photo_one.JPG"
        ["photo-one-400.webp"; "photo-one-800.webp"] None "50vw" false "x"
        None false = Done html)
  /\ Utils.make_html Sample.flask_helper "img/photo_one.JPG" [] None "50vw"
       false "x" None false = Raised FormatError.
Proof.
  destruct (make_html_fails_iff_empty Sample.flask_helper "img/photo_one.JPG"
              ["photo-one-400.webp"; "photo-one-800.webp"] None "50vw" false
              "x" None false) as [_ [Hsome _]].
  destruct (make_html_fails_iff_empty Sample.flask_helper "img/photo_one.JPG"
              [] None "50vw" false "x" None false) as [[_ Hempty] _].
  split; [apply Hsome; discriminate | apply Hempty; reflexivity].
Defined.

Lemma last_in (l : list string) (m : string) : last l = Some m -> In m l.
Proof.
  induction l as [|x l IH]; intros Hl; [discriminate|].
  destruct l as [|y l'].
  - simpl in Hl. injection Hl as ->. left. reflexivity.
  - right. apply IH. exact Hl.
Qed.

Lemma last_some (l : list string) : l <> [] -> exists m, last l = Some m.
Proof.
  induction l as [|x l IH]; intros Hne; [congruence|].
  destruct l as [|y l'].
  - exists x. reflexivity.
  - destruct IH as [m Hm]; [discriminate|]. exists m. exact Hm.
Qed.

(* ===================================================================== *)
(** * The scenario of the specification, run *)
(* ===================================================================== *)

Example split_widths :
  Py.split Py.comma "600,abc" = ["600"; "abc"]
  /\ Py.split Py.comma "a,,b," = ["a"; EmptyString; "b"; EmptyString]
  /\ Py.split Py.comma EmptyString = [EmptyString].
Proof. repeat split; reflexivity. Qed.

Example int_literals :
  map (Py.int 4300)
    ["600"; " -5"; "abc"; "1_000"; "1__0"; "_1"; "1_"; "+7 "; "- 7"; "007";
     "0x10"; EmptyString]
  = [Some 600; Some (-5); None; Some 1000; None; None; None; Some 7; None;
     Some 7; None; None].
Proof. vm_compute. reflexivity. Qed.

Example str_of_integers :
  map Py.str_int [0; 7; 10; 1400; -5; 123456789012345678901234567890]
  = ["0"; "7"; "10"; "1400"; "-5"; "123456789012345678901234567890"].
Proof. vm_compute. reflexivity. Qed.

Example scenario_tag :
  Utils.make_html Sample.flask_helper "img/photo_one.JPG"
    ["photo-one-400.webp"; "photo-one-800.webp"] None "50vw" false "x" None
    false
  = Done ("<img src=" +:+ Utils.quoted "photo-one-800.webp"
            +:+ " srcset="
            +:+ Utils.quoted "photo-one-400.webp 400w, photo-one-800.webp 800w"
            +:+ " sizes=" +:+ Utils.quoted "50vw"
            +:+ " alt=" +:+ Utils.quoted "x" +:+ ">").
Proof. vm_compute. reflexivity. Qed.

Example scenario_run :
  snd (image Sample.scenario (Sample.start Sample.host Sample.disk)) = Done true
  /\ map fst (map_to_list
                (fs (fst (image Sample.scenario
                            (Sample.start Sample.host Sample.disk)))))
     = ["img/photo-one-400.webp"; "img/photo-one-800.webp"]
  /\ filter (fun e => is_io e = true)
       (trace (fst (image Sample.scenario
                      (Sample.start Sample.host Sample.disk))))
     = [CallResize "img/photo_one.JPG" [400; 800] "webp" 100 true true;
        @CallMakeHtml Sample.host "img/photo_one.JPG"
          ["photo-one-400.webp"; "photo-one-800.webp"] None "50vw" false "x"
          None false;
        CallUnlink "img/photo_one.JPG"].
Proof. repeat split; vm_compute; reflexivity. Qed.

(* ===================================================================== *)
(** * Every run of [image] *)
(* ===================================================================== *)

Section RunFacts.

Context {H : Host}.

(** Each way of running gives the result that [image] computes. *)
Lemma run_image (a : ImageArgs) (w : World H) (t : list (event H))
  (d : FS H) (r : outcome bool) :
  run a (fs w) t d r -> image a w = (mkWorld d (trace w ++ t), r).
Proof.
  intros Hrun. destruct Hrun as
    [e Hp | ws d1 e Hp Hr | ws d1 d2 names e Hp Hr Hh Hm
    | ws d1 d2 d3 names th e Hp Hr Hhtml Hd Hu
    | ws d1 d2 d3 names th td Hp Hr Hhtml Hdel].
  - apply image_parse_error. exact Hp.
  - apply image_resize_error; assumption.
  - apply image_html_error with (d1 := d1); assumption.
  - unfold image, bind. rewrite echo_options_run.
    set (opts := @option_events H a). clearbody opts.
    unfold of_outcome. fold (widths_of H a). rewrite Hp.
    unfold call, echo, log; simpl.
    fold (source_file H a). fold (run_resize a ws (fs w)). rewrite Hr. simpl.
    destruct Hhtml as [Hh | d2 s Hh Hm]; rewrite Hh, Hd; simpl.
    + unfold ret at 1. unfold bind, call; simpl. rewrite Hu.
      simpl. rewrite <- !app_assoc. reflexivity.
    + unfold bind, call; simpl. fold (run_make_html a names d1). rewrite Hm.
      simpl. rewrite Hu. simpl. rewrite <- !app_assoc. reflexivity.
  - unfold image, bind. rewrite echo_options_run.
    set (opts := @option_events H a). clearbody opts.
    unfold of_outcome. fold (widths_of H a). rewrite Hp.
    unfold call, echo, log; simpl.
    fold (source_file H a). fold (run_resize a ws (fs w)). rewrite Hr. simpl.
    destruct Hhtml as [Hh | d2 s Hh Hm]; rewrite Hh; simpl.
    + unfold ret at 1.
      destruct Hdel as [Hd | d3 u Hd Hu]; rewrite Hd; simpl.
      * unfold ret. simpl. rewrite <- !app_assoc. reflexivity.
      * unfold bind, call; simpl. rewrite Hu. unfold ret.
        simpl. rewrite <- !app_assoc. reflexivity.
    + unfold bind, call; simpl. fold (run_make_html a names d1). rewrite Hm.
      simpl.
      destruct Hdel as [Hd | d3 u Hd Hu]; rewrite Hd; simpl.
      * unfold ret. simpl. rewrite <- !app_assoc. reflexivity.
      * rewrite Hu. unfold ret. simpl. rewrite <- !app_assoc. reflexivity.
Qed.

(** Every run of [image] goes one of the five ways. *)
Lemma image_run (a : ImageArgs) (w : World H) :
  exists t d r, run a (fs w) t d r.
Proof.
  destruct (widths_of H a) as [ws|e] eqn:Hp.
  2:{ eexists _, _, _. apply RunBadWidths. exact Hp. }
  destruct (run_resize a ws (fs w)) as [d1 [names|e]] eqn:Hr.
  2:{ eexists _, _, _. eapply RunResizeRaises; eassumption. }
  assert (Hhtml : (exists th d2, html_done a names d1 th d2)
                  \/ exists d2 e, arg_html a = true
                                  /\ run_make_html a names d1 = (d2, Raised e)).
  { destruct (arg_html a) eqn:Hh.
    - destruct (run_make_html a names d1) as [d2 [s|e]] eqn:Hm.
      + left. eexists _, _. eapply HtmlBuilt; eassumption.
      + right. eauto.
    - left. eexists _, _. apply HtmlSkipped. exact Hh. }
  destruct Hhtml as [[th [d2 Hhtml]] | [d2 [e [Hh Hm]]]].
  2:{ eexists _, _, _. eapply RunHtmlRaises; eassumption. }
  destruct (arg_delete a) eqn:Hd.
  - destruct (unlink H d2 (source_file H a)) as [d3 [u|e]] eqn:Hu.
    + eexists _, _, _. eapply RunDone; [eassumption..|].
      eapply DeleteUnlinked; eassumption.
    + eexists _, _, _. eapply RunUnlinkRaises; eassumption.
  - eexists _, _, _. eapply RunDone; [eassumption..|].
    apply DeleteSkipped. exact Hd.
Qed.

(** The events a run adds, the disk it leaves and its end are those of one
    of the five ways. *)
Lemma added_run (a : ImageArgs) (w : World H) (t : list (event H)) :
  added a w t ->
  run a (fs w) t (fs (fst (image a w))) (snd (image a w)).
Proof.
  intros Ht. destruct (image_run a w) as [t' [d [r Hrun]]].
  pose proof (run_image a w t' d r Hrun) as Himg.
  unfold added in Ht. rewrite Himg in Ht. simpl in Ht.
  apply app_inv_head in Ht. subst t'. rewrite Himg. exact Hrun.
Qed.

End RunFacts.

(* --------------------------------------------------------------------- *)
(** ** What a run does and never does *)

Lemma option_events_io_free (H : Host) (a : ImageArgs) :
  List.filter is_io (@option_events H a) = [].
Proof. reflexivity. Qed.

Lemma in_option_events (H : Host) (a : ImageArgs) (e : event H) :
  In e (option_events a) -> is_io e = false.
Proof.
  intros Hin. pose proof (option_events_console (H := H) a) as Hall.
  rewrite forallb_forall in Hall. specialize (Hall e Hin).
  destruct (is_io e); [discriminate Hall|reflexivity].
Qed.

(** X1: a run in which every step succeeds returns True; its events are
    the option lines, the resize call, the line of names, the HTML call
    and its line when the tag is asked for, the unlink and its line when
    deletion is asked for, and the closing line; the disk is the one the
    last step left. *)
Theorem image_success (H : Host) (a : ImageArgs) (w : World H)
  (ws : list Z) (names : Filenames H) (s : string) (d1 d2 d3 : FS H) :
  widths_of H a = Done ws ->
  run_resize a ws (fs w) = (d1, Done names) ->
  (if arg_html a then run_make_html a names d1 = (d2, Done s) else d2 = d1) ->
  (if arg_delete a
   then unlink H d2 (source_file H a) = (d3, Done tt) else d3 = d2) ->
  image a w
  = (mkWorld d3
       (trace w ++ option_events a
          ++ [resize_call a ws; names_echo names]
          ++ (if arg_html a then [html_call a names; html_echo s] else [])
          ++ (if arg_delete a
              then [CallUnlink (source_file H a); deleted_echo a] else [])
          ++ [done_echo]),
     Done true).
Proof.
  intros Hp Hr Hh Hd. apply run_image.
  apply RunDone with (d1 := d1) (d2 := d2); try assumption.
  - destruct (arg_html a) eqn:Ea.
    + apply HtmlBuilt; assumption.
    + subst d2. apply HtmlSkipped. exact Ea.
  - destruct (arg_delete a) eqn:Ea.
    + apply DeleteUnlinked with (u := tt); assumption.
    + subst d3. apply DeleteSkipped. exact Ea.
Qed.

(** X2: when the unlink raises, the exception ends the run: neither the
    line about the deletion nor the closing line is written, and the disk
    is as the failed unlink left it, with the variants written before. *)
Theorem unlink_failure_ends_run (H : Host) (a : ImageArgs) (w : World H)
  (ws : list Z) (names : Filenames H) (s : string) (d1 d2 d3 : FS H)
  (e : exn) :
  arg_delete a = true ->
  widths_of H a = Done ws ->
  run_resize a ws (fs w) = (d1, Done names) ->
  (if arg_html a then run_make_html a names d1 = (d2, Done s) else d2 = d1) ->
  unlink H d2 (source_file H a) = (d3, Raised e) ->
  image a w
  = (mkWorld d3
       (trace w ++ option_events a
          ++ [resize_call a ws; names_echo names]
          ++ (if arg_html a then [html_call a names; html_echo s] else [])
          ++ [CallUnlink (source_file H a)]),
     Raised e).
Proof.
  intros Hd Hp Hr Hh Hu. apply run_image.
  apply RunUnlinkRaises with (d1 := d1) (d2 := d2); try assumption.
  destruct (arg_html a) eqn:Ea.
  - apply HtmlBuilt; assumption.
  - subst d2. apply HtmlSkipped. exact Ea.
Qed.

(** X3: every run starts with the thirteen option lines, whatever happens
    after them. *)
Theorem options_echoed_first (H : Host) (a : ImageArgs) (w : World H) :
  exists rest,
    added a w (option_events a ++ rest)
    /\ length (@option_events H a) = 13%nat.
Proof.
  destruct (image_run a w) as [t [d [r Hrun]]].
  pose proof (run_image a w t d r Hrun) as Himg.
  assert (Hstart : exists rest, t = option_events a ++ rest).
  { destruct Hrun.
    - exists []. symmetry. apply app_nil_r.
    - eexists. reflexivity.
    - eexists. reflexivity.
    - eexists. reflexivity.
    - eexists. reflexivity. }
  destruct Hstart as [rest ->]. exists rest. split; [|reflexivity].
  unfold added. rewrite Himg. reflexivity.
Qed.

(** X4: the only file a run ever unlinks is the source, and only when
    deletion is asked for. *)
Theorem only_the_source_is_unlinked (H : Host) (a : ImageArgs) (w : World H)
  (t : list (event H)) (e : event H) :
  added a w t ->
  In e t ->
  is_unlink e = true ->
  e = CallUnlink (source_file H a) /\ arg_delete a = true.
Proof.
  intros Ht Hin He. apply added_run in Ht.
  assert (Hopts : In e (option_events a) -> False).
  { intros Ho. apply in_option_events in Ho. destruct e; discriminate. }
  destruct Ht as
    [x Hp | ws d1 x Hp Hr | ws d1 d2 names x Hp Hr Hh Hm
    | ws d1 d2 d3 names th x Hp Hr Hhtml Hd Hu
    | ws d1 d2 d3 names th td Hp Hr Hhtml Hdel].
  - contradiction.
  - apply in_app_or in Hin. destruct Hin as [Hin|[<-|[]]]; [contradiction|].
    discriminate He.
  - apply in_app_or in Hin.
    destruct Hin as [Hin|[<-|[<-|[<-|[]]]]];
      [contradiction|discriminate He..].
  - apply in_app_or in Hin. destruct Hin as [Hin|Hin]; [contradiction|].
    destruct Hin as [<-|[<-|Hin]]; [discriminate He..|].
    simpl in Hin. apply in_app_or in Hin. destruct Hin as [Hin|[<-|[]]]; [|auto].
    destruct Hhtml; [destruct Hin|].
    destruct Hin as [<-|[<-|[]]]; discriminate He.
  - apply in_app_or in Hin. destruct Hin as [Hin|Hin]; [contradiction|].
    destruct Hin as [<-|[<-|Hin]]; [discriminate He..|].
    simpl in Hin. apply in_app_or in Hin. destruct Hin as [Hin|Hin].
    { destruct Hhtml; [destruct Hin|].
      destruct Hin as [<-|[<-|[]]]; discriminate He. }
    simpl in Hin. apply in_app_or in Hin. destruct Hin as [Hin|[<-|[]]]; [|discriminate He].
    destruct Hdel; [destruct Hin|].
    destruct Hin as [<-|[<-|[]]]; [auto|discriminate He].
Qed.

(** X5: the HTML builder is called only when the tag is asked for, and
    then on the source path, with exactly the names the resizer returned
    and the options as given. *)
Theorem html_built_from_resized_names (H : Host) (a : ImageArgs)
  (w : World H) (t : list (event H)) (e : event H) :
  added a w t ->
  In e t ->
  is_make_html e = true ->
  arg_html a = true
  /\ exists ws d1 names,
       widths_of H a = Done ws
       /\ run_resize a ws (fs w) = (d1, Done names)
       /\ e = html_call a names.
Proof.
  intros Ht Hin He. apply added_run in Ht.
  assert (Hopts : In e (option_events a) -> False).
  { intros Ho. apply in_option_events in Ho. destruct e; discriminate. }
  destruct Ht as
    [x Hp | ws d1 x Hp Hr | ws d1 d2 names x Hp Hr Hh Hm
    | ws d1 d2 d3 names th x Hp Hr Hhtml Hd Hu
    | ws d1 d2 d3 names th td Hp Hr Hhtml Hdel].
  - contradiction.
  - apply in_app_or in Hin. destruct Hin as [Hin|[<-|[]]]; [contradiction|].
    discriminate He.
  - apply in_app_or in Hin.
    destruct Hin as [Hin|[<-|[<-|[<-|[]]]]];
      [contradiction|discriminate He..|].
    split; [exact Hh|]. exists ws, d1, names. auto.
  - apply in_app_or in Hin. destruct Hin as [Hin|Hin]; [contradiction|].
    destruct Hin as [<-|[<-|Hin]]; [discriminate He..|].
    simpl in Hin. apply in_app_or in Hin. destruct Hin as [Hin|[<-|[]]]; [|discriminate He].
    destruct Hhtml as [Hh|d2 s Hh Hm]; [destruct Hin|].
    destruct Hin as [<-|[<-|[]]]; [|discriminate He].
    split; [exact Hh|]. exists ws, d1, names. auto.
  - apply in_app_or in Hin. destruct Hin as [Hin|Hin]; [contradiction|].
    destruct Hin as [<-|[<-|Hin]]; [discriminate He..|].
    simpl in Hin. apply in_app_or in Hin. destruct Hin as [Hin|Hin].
    { destruct Hhtml as [Hh|d2 s Hh Hm]; [destruct Hin|].
      destruct Hin as [<-|[<-|[]]]; [|discriminate He].
      split; [exact Hh|]. exists ws, d1, names. auto. }
    simpl in Hin. apply in_app_or in Hin. destruct Hin as [Hin|[<-|[]]]; [|discriminate He].
    destruct Hdel; [destruct Hin|].
    destruct Hin as [<-|[<-|[]]]; discriminate He.
Qed.

Lemma option_events_last_not_done (H : Host) (a : ImageArgs) :
  last (@option_events H a) <> Some done_echo.
Proof.
  intros Heq. cbv in Heq. destruct (arg_flask a); discriminate Heq.
Qed.

(** X6: the calls that leave the module are made at most once each and in
    a fixed order: the resize first, the HTML builder next and only when
    the tag is asked for, the unlink of the source last and only when
    deletion is asked for. *)
Theorem io_calls_in_order (H : Host) (a : ImageArgs) (w : World H)
  (t : list (event H)) :
  added a w t ->
  List.filter is_io t = []
  \/ (exists ws, List.filter is_io t = [resize_call a ws])
  \/ (exists ws names,
        arg_html a = true
        /\ List.filter is_io t = [resize_call a ws; html_call a names])
  \/ (exists ws,
        arg_html a = false /\ arg_delete a = true
        /\ List.filter is_io t
           = [resize_call a ws; CallUnlink (source_file H a)])
  \/ (exists ws names,
        arg_html a = true /\ arg_delete a = true
        /\ List.filter is_io t
           = [resize_call a ws; html_call a names;
              CallUnlink (source_file H a)]).
Proof.
  intros Ht. apply added_run in Ht.
  destruct Ht as
    [x Hp | ws d1 x Hp Hr | ws d1 d2 names x Hp Hr Hh Hm
    | ws d1 d2 d3 names th x Hp Hr Hhtml Hd Hu
    | ws d1 d2 d3 names th td Hp Hr Hhtml Hdel];
    rewrite ?List.filter_app, option_events_io_free.
  - left. reflexivity.
  - right. left. exists ws. reflexivity.
  - right. right. left. exists ws, names. split; [exact Hh|reflexivity].
  - destruct Hhtml as [Hh|d2 s Hh Hm]; simpl.
    + right. right. right. left. exists ws. auto.
    + right. right. right. right. exists ws, names. auto.
  - destruct Hhtml as [Hh|d2 s Hh Hm], Hdel as [Hd|d3 u Hd Hu]; simpl.
    + right. left. exists ws. reflexivity.
    + right. right. right. left. exists ws. auto.
    + right. right. left. exists ws, names. auto.
    + right. right. right. right. exists ws, names. auto.
Qed.

(** X7: [image] returns True exactly when the last thing it wrote is the
    closing line, and it never returns False: a run that does not end
    with that line ended with an exception. *)
Theorem true_iff_closing_line (H : Host) (a : ImageArgs) (w : World H)
  (t : list (event H)) :
  added a w t ->
  (snd (image a w) = Done true <-> last t = Some done_echo)
  /\ snd (image a w) <> Done false.
Proof.
  intros Ht. apply added_run in Ht. revert Ht.
  generalize (fs (fst (image a w))) (snd (image a w)). intros d r Hrun.
  destruct Hrun as
    [x Hp | ws d1 x Hp Hr | ws d1 d2 names x Hp Hr Hh Hm
    | ws d1 d2 d3 names th x Hp Hr Hhtml Hd Hu
    | ws d1 d2 d3 names th td Hp Hr Hhtml Hdel].
  - split; [|discriminate]. split; [discriminate|].
    intros Hl. exfalso. exact (option_events_last_not_done H a Hl).
  - split; [|discriminate]. split; [discriminate|].
    rewrite last_snoc. discriminate.
  - split; [|discriminate]. split; [discriminate|].
    change [resize_call a ws; names_echo names; html_call a names]
      with ([resize_call a ws; names_echo names] ++ [html_call a names]).
    rewrite app_assoc, last_snoc. discriminate.
  - split; [|discriminate]. split; [discriminate|].
    rewrite !app_assoc, last_snoc. discriminate.
  - split; [|discriminate]. split; [|reflexivity].
    intros _. rewrite !app_assoc. apply last_snoc.
Qed.

(** X8: without the version flag the two callbacks write nothing and
    leave the disk alone: with no command named the program does nothing,
    and with the command named its events, its disk and its failure are
    those of [image]. *)
Theorem no_version_flag_adds_nothing (H : Host) (w : World H) :
  (forall v, v <> Some true -> _version_callback v w = (w, Done tt))
  /\ (forall v, fst (version v w) = w)
  /\ app false None w = (w, Done tt)
  /\ (forall a,
        app false (Some a) w
        = (fst (image a w),
           match snd (image a w) with
           | Done _ => Done tt
           | Raised e => Raised e
           end)).
Proof.
  split; [|split; [|split]].
  - intros [[|]|] Hv; [congruence|reflexivity..].
  - intros [[|]|]; reflexivity.
  - reflexivity.
  - intros a. unfold app, _version_callback, version, bind, ret. simpl.
    destruct (image a w) as [w' [b|e]]; reflexivity.
Qed.

(* --------------------------------------------------------------------- *)
(** ** The runs of the sample machines *)

(** The scenario on the sample machine goes the fifth way: every step
    succeeds. *)
Lemma sample_scenario_runs :
  exists (s : string) (d1 d3 : gmap string string),
    @run Sample.host Sample.scenario Sample.disk
      (@option_events Sample.host Sample.scenario
         ++ [@resize_call Sample.host Sample.scenario [400; 800];
             @names_echo Sample.host
               ["photo-one-400.webp"; "photo-one-800.webp"]]
         ++ [@html_call Sample.host Sample.scenario
               ["photo-one-400.webp"; "photo-one-800.webp"];
             @html_echo Sample.host s]
         ++ [@CallUnlink Sample.host (source_file Sample.host Sample.scenario);
             @deleted_echo Sample.host Sample.scenario]
         ++ [@done_echo Sample.host])
      d3 (Done true)
    /\ widths_of Sample.host Sample.scenario = Done [400; 800]
    /\ @run_resize Sample.host Sample.scenario [400; 800] Sample.disk
       = (d1, Done ["photo-one-400.webp"; "photo-one-800.webp"])
    /\ @run_make_html Sample.host Sample.scenario
         ["photo-one-400.webp"; "photo-one-800.webp"] d1
       = (d1, Done s)
    /\ Sample.remove_file d1 (source_file Sample.host Sample.scenario)
       = (d3, Done tt).
Proof.
  assert (Hp : widths_of Sample.host Sample.scenario = Done [400; 800])
    by (vm_compute; reflexivity).
  destruct (@run_resize Sample.host Sample.scenario [400; 800] Sample.disk)
    as [d1 r] eqn:Hr.
  assert (Hnames : r = Done ["photo-one-400.webp"; "photo-one-800.webp"]).
  { apply (f_equal snd) in Hr. simpl in Hr. rewrite <- Hr.
    vm_compute. reflexivity. }
  subst r.
  assert (Hd1 : d1 !! "img/photo_one.JPG" = Some "pixels").
  { apply (f_equal fst) in Hr. simpl in Hr. rewrite <- Hr.
    vm_compute. reflexivity. }
  destruct (@run_make_html Sample.host Sample.scenario
              ["photo-one-400.webp"; "photo-one-800.webp"] d1)
    as [d2 rh] eqn:Hm.
  assert (Hd2 : d2 = d1).
  { apply (f_equal fst) in Hm. simpl in Hm. symmetry. exact Hm. }
  subst d2.
  assert (Hs : exists s, rh = Done s).
  { apply (f_equal snd) in Hm. simpl in Hm. rewrite <- Hm.
    eexists. reflexivity. }
  destruct Hs as [s ->].
  assert (Hu : Sample.remove_file d1 (source_file Sample.host Sample.scenario)
               = (delete "img/photo_one.JPG" d1, Done tt)).
  { change (source_file Sample.host Sample.scenario) with "img/photo_one.JPG".
    unfold Sample.remove_file.
    match goal with
    | |- context [@lookup ?K ?A ?M ?I ?k ?m] =>
        assert (Hl : @lookup K A M I k m = Some "pixels") by exact Hd1;
        rewrite Hl
    end.
    reflexivity. }
  exists s, d1, (delete "img/photo_one.JPG" d1).
  split; [|split; [exact Hp|split; [reflexivity|split; [exact Hm|exact Hu]]]].
  apply RunDone with (d1 := d1) (d2 := d1).
  - exact Hp.
  - exact Hr.
  - apply HtmlBuilt; [reflexivity|exact Hm].
  - apply DeleteUnlinked with (u := tt); [reflexivity|exact Hu].
Qed.

Lemma run_added (H : Host) (a : ImageArgs) (w : World H)
  (t : list (event H)) (d : FS H) (r : outcome bool) :
  run a (fs w) t d r -> added a w t.
Proof.
  intros Hrun. unfold added. rewrite (run_image a w t d r Hrun). reflexivity.
Qed.

Lemma image_success_witness :
  exists d3 t,
    image Sample.scenario (Sample.start Sample.host Sample.disk)
    = (@mkWorld Sample.host d3 t, Done true).
Proof.
  destruct sample_scenario_runs as [s [d1 [d3 [_ [Hp [Hr [Hm Hu]]]]]]].
  eexists. eexists.
  apply (image_success Sample.host Sample.scenario
           (Sample.start Sample.host Sample.disk) [400; 800]
           ["photo-one-400.webp"; "photo-one-800.webp"] s d1 d1 d3 Hp Hr Hm Hu).
Defined.

Lemma unlink_failure_ends_run_witness :
  exists d t,
    image Sample.scenario (Sample.start locked_host Sample.disk)
    = (@mkWorld locked_host d t, Raised (OSError "PermissionError")).
Proof.
  destruct sample_scenario_runs as [s [d1 [d3 [_ [Hp [Hr [Hm Hu]]]]]]].
  eexists. eexists.
  apply (unlink_failure_ends_run locked_host Sample.scenario
           (Sample.start locked_host Sample.disk) [400; 800]
           ["photo-one-400.webp"; "photo-one-800.webp"] s d1 d1 d1
           (OSError "PermissionError") eq_refl Hp Hr Hm eq_refl).
Defined.

Lemma only_the_source_is_unlinked_witness :
  exists t,
    added Sample.scenario (Sample.start Sample.host Sample.disk) t
    /\ In (CallUnlink (source_file Sample.host Sample.scenario)) t
    /\ arg_delete Sample.scenario = true.
Proof.
  destruct sample_scenario_runs as [s [d1 [d3 [Hrun _]]]].
  eexists. split; [|split].
  - exact (run_added Sample.host Sample.scenario
             (Sample.start Sample.host Sample.disk) _ _ _ Hrun).
  - apply in_or_app. right. do 4 right. left. reflexivity.
  - refine (proj2 (only_the_source_is_unlinked Sample.host Sample.scenario
                     (Sample.start Sample.host Sample.disk) _
                     (CallUnlink (source_file Sample.host Sample.scenario))
                     (run_added Sample.host Sample.scenario
                        (Sample.start Sample.host Sample.disk) _ _ _ Hrun)
                     _ eq_refl)).
    apply in_or_app. right. do 4 right. left. reflexivity.
Defined.

Lemma html_built_from_resized_names_witness :
  exists t e,
    added Sample.scenario (Sample.start Sample.host Sample.disk) t
    /\ In e t
    /\ is_make_html e = true
    /\ exists ws d1 names,
         widths_of Sample.host Sample.scenario = Done ws
         /\ @run_resize Sample.host Sample.scenario ws Sample.disk
            = (d1, Done names)
         /\ e = html_call Sample.scenario names.
Proof.
  destruct sample_scenario_runs as [s [d1 [d3 [Hrun _]]]].
  pose proof (run_added Sample.host Sample.scenario
                (Sample.start Sample.host Sample.disk) _ _ _ Hrun) as Hadd.
  eexists.
  exists (@html_call Sample.host Sample.scenario
            ["photo-one-400.webp"; "photo-one-800.webp"]).
  assert (Hin : In (@html_call Sample.host Sample.scenario
                      ["photo-one-400.webp"; "photo-one-800.webp"])
                  (@option_events Sample.host Sample.scenario
                     ++ [@resize_call Sample.host Sample.scenario [400; 800];
                         @names_echo Sample.host
                           ["photo-one-400.webp"; "photo-one-800.webp"]]
                     ++ [@html_call Sample.host Sample.scenario
                           ["photo-one-400.webp"; "photo-one-800.webp"];
                         @html_echo Sample.host s]
                     ++ [@CallUnlink Sample.host
                           (source_file Sample.host Sample.scenario);
                         @deleted_echo Sample.host Sample.scenario]
                     ++ [@done_echo Sample.host])).
  { apply in_or_app. right. do 2 right. left. reflexivity. }
  split; [exact Hadd|]. split; [exact Hin|]. split; [reflexivity|].
  exact (proj2 (html_built_from_resized_names Sample.host Sample.scenario
                  (Sample.start Sample.host Sample.disk) _ _ Hadd Hin eq_refl)).
Defined.

Lemma io_calls_in_order_witness :
  exists t,
    added Sample.scenario (Sample.start Sample.host Sample.disk) t
    /\ exists ws names,
         List.filter is_io t
         = [resize_call Sample.scenario ws; html_call Sample.scenario names;
            CallUnlink (source_file Sample.host Sample.scenario)].
Proof.
  destruct sample_scenario_runs as [s [d1 [d3 [Hrun _]]]].
  pose proof (run_added Sample.host Sample.scenario
                (Sample.start Sample.host Sample.disk) _ _ _ Hrun) as Hadd.
  eexists. split; [exact Hadd|].
  destruct (io_calls_in_order Sample.host Sample.scenario
              (Sample.start Sample.host Sample.disk) _ Hadd)
    as [Hc|[[ws Hc]|[[ws [names [_ Hc]]]|[[ws [Hh _]]|[ws [names [_ [_ Hc]]]]]]]].
  - rewrite List.filter_app, option_events_io_free in Hc. discriminate Hc.
  - rewrite List.filter_app, option_events_io_free in Hc. discriminate Hc.
  - rewrite List.filter_app, option_events_io_free in Hc. discriminate Hc.
  - discriminate Hh.
  - exists ws, names. exact Hc.
Defined.

Lemma true_iff_closing_line_witness :
  exists t,
    added Sample.scenario (Sample.start Sample.host Sample.disk) t
    /\ last t = Some done_echo
    /\ snd (image Sample.scenario (Sample.start Sample.host Sample.disk))
       = Done true.
Proof.
  destruct sample_scenario_runs as [s [d1 [d3 [Hrun _]]]].
  pose proof (run_added Sample.host Sample.scenario
                (Sample.start Sample.host Sample.disk) _ _ _ Hrun) as Hadd.
  eexists. split; [exact Hadd|].
  assert (Hlast : last
                    (@option_events Sample.host Sample.scenario
                       ++ [@resize_call Sample.host Sample.scenario [400; 800];
                           @names_echo Sample.host
                             ["photo-one-400.webp"; "photo-one-800.webp"]]
                       ++ [@html_call Sample.host Sample.scenario
                             ["photo-one-400.webp"; "photo-one-800.webp"];
                           @html_echo Sample.host s]
                       ++ [@CallUnlink Sample.host
                             (source_file Sample.host Sample.scenario);
                           @deleted_echo Sample.host Sample.scenario]
                       ++ [@done_echo Sample.host])
                  = Some done_echo).
  { rewrite !app_assoc. apply last_snoc. }
  split; [exact Hlast|].
  apply (proj1 (true_iff_closing_line Sample.host Sample.scenario
                  (Sample.start Sample.host Sample.disk) _ Hadd)).
  exact Hlast.
Defined.

(* ===================================================================== *)
(** * More on the widths text *)
(* ===================================================================== *)

Lemma int_each_app (m : Z) (t1 t2 : list string) :
  int_each m (t1 ++ t2)
  = match int_each m t1 with
    | Raised e => Raised e
    | Done z1 =>
        match int_each m t2 with
        | Raised e => Raised e
        | Done z2 => Done (z1 ++ z2)
        end
    end.
Proof.
  induction t1 as [|t ts IH]; simpl.
  - destruct (int_each m t2); reflexivity.
  - destruct (Py.int m t) as [z|]; [|reflexivity].
    rewrite IH. destruct (int_each m ts) as [z1|e]; [|reflexivity].
    destruct (int_each m t2); reflexivity.
Qed.

Lemma int_each_length (m : Z) (toks : list string) (zs : list Z) :
  int_each m toks = Done zs -> length zs = length toks.
Proof.
  intros Hd. apply int_each_done in Hd.
  induction Hd; simpl; [reflexivity|]. f_equal. assumption.
Qed.

(** Splitting a text made of two parts around a separator gives the pieces
    of the first part, then those of the second. *)
Lemma split_app_sep (c : ascii) (l r : string) :
  Py.split c (l +:+ String c r) = Py.split c l ++ Py.split c r.
Proof.
  induction l as [|a l IH]; sapp.
  - simpl. rewrite Ascii.eqb_refl. reflexivity.
  - simpl. rewrite IH. destruct (Ascii.eqb a c); [reflexivity|].
    pose proof (split_not_empty c l) as Hne.
    destruct (Py.split c l) as [|t ts]; [congruence|]. reflexivity.
Qed.

Lemma split_length (c : ascii) (s : string) :
  length (Py.split c s) = S (count_char c s).
Proof.
  induction s as [|a s IH]; [reflexivity|].
  simpl. destruct (Ascii.eqb a c).
  - simpl. rewrite IH. reflexivity.
  - pose proof (split_not_empty c s) as Hne.
    destruct (Py.split c s) as [|t ts]; [congruence|]. simpl in *. exact IH.
Qed.

(** A blank token is no integer literal. *)
Lemma int_blank (m : Z) (b : string) : blank b = true -> Py.int m b = None.
Proof.
  intros Hb. unfold Py.int. rewrite skip_space_all_blank by exact Hb.
  reflexivity.
Qed.

Lemma str_int_no_comma (z : Z) : Py.contains Py.comma (Py.str_int z) = false.
Proof.
  unfold Py.str_int. destruct (Z.ltb_spec z 0) as [Hneg|Hpos].
  - destruct (str_nat_spec (- z) ltac:(lia)) as [_ [Hall _]].
    simpl. apply digits_have_no; [reflexivity|exact Hall].
  - destruct (str_nat_spec z Hpos) as [_ [Hall _]].
    apply digits_have_no; [reflexivity|exact Hall].
Qed.

Lemma parse_widths_comma (m : Z) (l r : string) :
  parse_widths m (l +:+ String Py.comma r)
  = match parse_widths m l with
    | Raised e => Raised e
    | Done wl =>
        match parse_widths m r with
        | Raised e => Raised e
        | Done wr => Done (wl ++ wr)
        end
    end.
Proof.
  unfold parse_widths. rewrite split_app_sep. apply int_each_app.
Qed.

(** X9: the widths of two texts put together with a comma are the widths
    of the first followed by those of the second; an error in the first
    is raised before the second is looked at. *)
Theorem parse_widths_concat (m : Z) (l r : string) :
  parse_widths m (l +:+ "," +:+ r)
  = match parse_widths m l with
    | Raised e => Raised e
    | Done wl =>
        match parse_widths m r with
        | Raised e => Raised e
        | Done wr => Done (wl ++ wr)
        end
    end.
Proof.
  change (l +:+ "," +:+ r) with (l +:+ String Py.comma r).
  apply parse_widths_comma.
Qed.

(** X10: a widths text with n commas that parses gives n + 1 widths. *)
Theorem widths_count (m : Z) (s : string) (ws : list Z) :
  parse_widths m s = Done ws ->
  length ws = S (count_char Py.comma s).
Proof.
  unfold parse_widths. intros Hd. apply int_each_length in Hd.
  rewrite Hd. apply split_length.
Qed.

Lemma widths_count_witness :
  parse_widths 4300 "600,1000,1400" = Done [600; 1000; 1400]
  /\ length [600; 1000; 1400] = S (count_char Py.comma "600,1000,1400").
Proof.
  split; [reflexivity|].
  apply (widths_count 4300 "600,1000,1400" [600; 1000; 1400]). reflexivity.
Defined.

(** X11: when the first token that [int()] refuses is not refused for its
    number of digits, the error of the widths text is the invalid-literal
    error naming that token, and [image] ends with it after the option
    lines, the disk untouched; a first token refused for its number of
    digits ends the run at the same point. *)
Theorem first_bad_token_named (H : Host) (a : ImageArgs) (w : World H)
  (pre post : list string) (bad : string) :
  Py.split Py.comma (arg_widths a) = pre ++ bad :: post ->
  Forall (fun t => Py.int (int_max_str_digits H) t <> None) pre ->
  Py.int (int_max_str_digits H) bad = None ->
  (over_digit_cap (int_max_str_digits H) bad = false ->
   image a w
   = (mkWorld (fs w) (trace w ++ option_events a), Raised (ValueError bad)))
  /\ exists e,
       image a w = (mkWorld (fs w) (trace w ++ option_events a), Raised e).
Proof.
  intros Hsplit Hpre Hbad.
  assert (Hrun : image a w
                 = (mkWorld (fs w) (trace w ++ option_events a),
                    Raised (ValueError bad))).
  { apply image_parse_error.
    unfold widths_of, parse_widths. rewrite Hsplit. clear Hsplit.
    induction Hpre as [|t ts Ht Hts IH]; simpl.
    - rewrite Hbad. reflexivity.
    - destruct (Py.int (int_max_str_digits H) t); [|congruence].
      rewrite IH. reflexivity. }
  split; [intros _; exact Hrun|]. eexists. exact Hrun.
Qed.

Lemma first_bad_token_named_witness :
  over_digit_cap 4300 "12px" = false
  /\ image (Sample.args "600,12px,abc" "webp" true true)
           (Sample.start Sample.host Sample.disk)
     = (@mkWorld Sample.host Sample.disk
          (option_events (Sample.args "600,12px,abc" "webp" true true)),
        Raised (ValueError "12px")).
Proof.
  split; [reflexivity|].
  apply (first_bad_token_named Sample.host
           (Sample.args "600,12px,abc" "webp" true true)
           (Sample.start Sample.host Sample.disk) ["600"] ["abc"] "12px").
  - reflexivity.
  - repeat constructor. discriminate.
  - reflexivity.
  - reflexivity.
Defined.

(** X12: writing a list of integers, not empty, in decimal with commas
    between them and parsing the text gives the list back. *)
Theorem widths_round_trip (m : Z) (ws : list Z) :
  ws <> [] ->
  Forall (fun z => Py.too_many_digits m (digit_count z) = false) ws ->
  parse_widths m (Py.join "," (map Py.str_int ws)) = Done ws.
Proof.
  intros Hne Hcap. unfold parse_widths.
  change "," with (Py.str1 Py.comma).
  rewrite split_join.
  - apply int_each_done. induction Hcap as [|z zs Hz Hzs IH]; simpl.
    + constructor.
    + constructor.
      * pose proof (int_str_int m z EmptyString EmptyString eq_refl eq_refl Hz)
          as Hint.
        rewrite append_nil, append_empty_r in Hint. exact Hint.
      * destruct zs as [|z' zs']; [constructor|]. apply IH. discriminate.
  - destruct ws; [congruence|discriminate].
  - apply List.Forall_map. apply List.Forall_forall. intros z _.
    apply str_int_no_comma.
Qed.

Lemma widths_round_trip_witness :
  Py.join "," (map Py.str_int [600; 0; -5]) = "600,0,-5"
  /\ parse_widths 4300 (Py.join "," (map Py.str_int [600; 0; -5]))
     = Done [600; 0; -5].
Proof.
  split; [reflexivity|].
  apply (widths_round_trip 4300 [600; 0; -5]).
  - discriminate.
  - repeat constructor.
Defined.

(** X13: an empty token is never accepted: the empty text and a text that
    starts with a blank token raise on that token, and a text that ends
    with a comma or holds two commas in a row raises. *)
Theorem empty_tokens_raise (m : Z) :
  parse_widths m EmptyString = Raised (ValueError EmptyString)
  /\ (forall b s,
        blank b = true ->
        parse_widths m (b +:+ "," +:+ s) = Raised (ValueError b))
  /\ (forall s, exists e, parse_widths m (s +:+ ",") = Raised e)
  /\ (forall l r, exists e, parse_widths m (l +:+ ",," +:+ r) = Raised e).
Proof.
  assert (Hempty : parse_widths m EmptyString = Raised (ValueError EmptyString))
    by reflexivity.
  assert (Hlead : forall b s,
             blank b = true ->
             parse_widths m (b +:+ "," +:+ s) = Raised (ValueError b)).
  { intros b s Hb.
    change (b +:+ "," +:+ s) with (b +:+ String Py.comma s).
    rewrite parse_widths_comma.
    assert (Hb1 : parse_widths m b = Raised (ValueError b)).
    { unfold parse_widths. rewrite split_no_sep.
      - simpl. rewrite int_blank by exact Hb. reflexivity.
      - clear s. induction b as [|c b IH]; [reflexivity|].
        simpl in Hb. apply andb_true_iff in Hb. destruct Hb as [Hc Hb].
        simpl. rewrite IH by exact Hb. rewrite orb_false_r.
        apply Ascii.eqb_neq. intros ->. discriminate Hc. }
    rewrite Hb1. reflexivity. }
  split; [exact Hempty|]. split; [exact Hlead|]. split.
  - intros s.
    change (s +:+ ",") with (s +:+ String Py.comma EmptyString).
    rewrite parse_widths_comma. rewrite Hempty.
    destruct (parse_widths m s); eauto.
  - intros l r.
    change (l +:+ ",," +:+ r)
      with (l +:+ String Py.comma (EmptyString +:+ "," +:+ r)).
    rewrite parse_widths_comma. rewrite (Hlead EmptyString r eq_refl).
    destruct (parse_widths m l); eauto.
Qed.

Lemma empty_tokens_raise_witness :
  blank " " = true
  /\ parse_widths 4300 (" " +:+ "," +:+ "600") = Raised (ValueError " ")
  /\ exists e, parse_widths 4300 ("600" +:+ ",") = Raised e.
Proof.
  destruct (empty_tokens_raise 4300) as [_ [Hlead [Htrail _]]].
  split; [reflexivity|]. split.
  - apply (Hlead " " "600"). reflexivity.
  - apply (Htrail "600").
Defined.

(** ** The characters of a widths text that parses *)

Lemma skip_space_chars (s : string) :
  all_chars literal_char (Py.skip_space s) = all_chars literal_char s.
Proof.
  induction s as [|c s IH]; [reflexivity|].
  simpl. destruct (Py.is_space c) eqn:Hc; [|reflexivity].
  rewrite IH. unfold literal_char. rewrite Hc.
  rewrite orb_true_r. reflexivity.
Qed.

Lemma read_sign_chars (s body : string) (sign : Z) :
  Py.read_sign s = (sign, body) ->
  all_chars literal_char s = all_chars literal_char body.
Proof.
  destruct s as [|c s]; simpl.
  - intros Heq. injection Heq as _ <-. reflexivity.
  - unfold literal_char.
    destruct (Py.code c =? 43) eqn:Hplus.
    + intros Heq. injection Heq as _ <-.
      rewrite orb_true_r. reflexivity.
    + destruct (Py.code c =? 45) eqn:Hminus.
      * intros Heq. injection Heq as _ <-.
        rewrite orb_true_r. reflexivity.
      * intros Heq. injection Heq as _ <-. simpl.
        unfold literal_char. rewrite Hplus, Hminus. reflexivity.
Qed.

Lemma scan_digits_chars (s rest : string) (pu : bool) (acc nd v nd' : Z) :
  Py.scan_digits s pu acc nd = Some (v, nd', rest) ->
  all_chars literal_char s = all_chars literal_char rest.
Proof.
  revert pu acc nd. induction s as [|c s IH]; intros pu acc nd; simpl.
  - destruct pu; [discriminate|]. intros Heq. injection Heq as _ _ <-.
    reflexivity.
  - unfold literal_char at 1.
    destruct (Py.is_digit c) eqn:Hd.
    + intros Hs. apply IH in Hs. exact Hs.
    + destruct (Py.is_underscore c) eqn:Hu.
      * destruct pu; [discriminate|]. intros Hs. apply IH in Hs.
        rewrite orb_true_r. exact Hs.
      * destruct pu; [discriminate|]. intros Heq. injection Heq as _ _ <-.
        simpl. unfold literal_char. rewrite Hd, Hu. reflexivity.
Qed.

(** A text that [int()] reads is made of digits, white space, underscores
    and signs only. *)
Lemma int_chars (m : Z) (s : string) (z : Z) :
  Py.int m s = Some z -> all_chars literal_char s = true.
Proof.
  unfold Py.int. rewrite <- skip_space_chars.
  destruct (Py.read_sign (Py.skip_space s)) as [sign body] eqn:Hsign.
  rewrite (read_sign_chars _ _ _ Hsign).
  destruct body as [|c body]; [discriminate|].
  destruct (Py.is_underscore c); [discriminate|].
  destruct (Py.scan_digits (String c body) false 0 0) as [[[v nd] rest]|] eqn:Hs;
    [|discriminate].
  rewrite (scan_digits_chars _ _ _ _ _ _ _ Hs).
  destruct (nd =? 0); [discriminate|].
  destruct (Py.too_many_digits m nd); [discriminate|].
  destruct (Py.skip_space rest) eqn:Hrest; [|discriminate].
  intros _. rewrite <- skip_space_chars. rewrite Hrest. reflexivity.
Qed.

Lemma split_chars (c : ascii) (p : ascii -> bool) (s : string) :
  Forall (fun t => all_chars p t = true) (Py.split c s) ->
  all_chars (fun x => p x || Ascii.eqb x c) s = true.
Proof.
  induction s as [|a s IH]; [reflexivity|].
  simpl. destruct (Ascii.eqb a c) eqn:Ha.
  - intros Hall. inversion Hall; subst.
    rewrite orb_true_r. simpl. apply IH. assumption.
  - pose proof (split_not_empty c s) as Hne.
    destruct (Py.split c s) as [|t ts]; [congruence|].
    intros Hall. inversion Hall as [|t' ts' Ht Hts]; subst.
    simpl in Ht. apply andb_true_iff in Ht. destruct Ht as [Hpa Ht].
    rewrite Hpa. simpl. apply IH. constructor; assumption.
Qed.

(** X14: a widths text that parses is made of digits, white space,
    underscores, signs and commas only: any other character, a letter or
    a dot for instance, makes the text fail. *)
Theorem widths_made_of_literal_chars (m : Z) (s : string) (ws : list Z) :
  parse_widths m s = Done ws ->
  all_chars (fun c => literal_char c || Ascii.eqb c Py.comma) s = true.
Proof.
  unfold parse_widths. intros Hd. apply int_each_done in Hd.
  apply split_chars.
  induction Hd as [|t z ts zs Ht Hts IH]; constructor; [|exact IH].
  apply (int_chars m t z Ht).
Qed.

Lemma widths_made_of_literal_chars_witness :
  parse_widths 4300 "+600, 1_000 ,-5" = Done [600; 1000; -5]
  /\ all_chars (fun c => literal_char c || Ascii.eqb c Py.comma)
       "+600, 1_000 ,-5" = true.
Proof.
  split; [reflexivity|].
  apply (widths_made_of_literal_chars 4300 "+600, 1_000 ,-5" [600; 1000; -5]).
  reflexivity.
Defined.

(** X15: splitting loses nothing: no piece holds the separator, and the
    pieces joined with the separator give the text back. *)
Theorem split_then_join (c : ascii) (s : string) :
  Py.join (Py.str1 c) (Py.split c s) = s
  /\ Forall (fun t => Py.contains c t = false) (Py.split c s).
Proof.
  induction s as [|a s [IHj IHf]]; [split; [reflexivity|repeat constructor]|].
  simpl. pose proof (split_not_empty c s) as Hne.
  destruct (Ascii.eqb a c) eqn:Ha.
  - apply Ascii.eqb_eq in Ha. subst a. split.
    + destruct (Py.split c s) as [|t ts]; [congruence|].
      change (Py.join (Py.str1 c) (EmptyString :: t :: ts))
        with (EmptyString +:+ Py.str1 c +:+ Py.join (Py.str1 c) (t :: ts)).
      rewrite IHj. reflexivity.
    + constructor; [reflexivity|exact IHf].
  - destruct (Py.split c s) as [|t ts]; [congruence|].
    apply List.Forall_cons_iff in IHf. destruct IHf as [Ht Hts]. split.
    + destruct ts as [|t2 ts].
      * simpl in IHj. simpl. rewrite IHj. reflexivity.
      * change (Py.join (Py.str1 c) (String a t :: t2 :: ts))
          with (String a t +:+ Py.str1 c +:+ Py.join (Py.str1 c) (t2 :: ts)).
        change (Py.join (Py.str1 c) (t :: t2 :: ts))
          with (t +:+ Py.str1 c +:+ Py.join (Py.str1 c) (t2 :: ts)) in IHj.
        rewrite append_cons. rewrite IHj. reflexivity.
    + constructor; [|exact Hts]. simpl. rewrite Ha, Ht. reflexivity.
Qed.

(* ===================================================================== *)
(** * The text of the tag *)
(* ===================================================================== *)

Lemma contains_app (c : ascii) (a b : string) :
  Py.contains c (a +:+ b) = Py.contains c a || Py.contains c b.
Proof.
  induction a as [|x a IH]; sapp; [reflexivity|].
  simpl. rewrite IH. apply orb_assoc.
Qed.

Lemma str_int_lacks (c : ascii) (z : Z) :
  Py.is_digit c = false -> Py.code c <> 45 ->
  Py.contains c (Py.str_int z) = false.
Proof.
  intros Hd Hm. unfold Py.str_int. destruct (Z.ltb_spec z 0) as [Hneg|Hpos].
  - destruct (str_nat_spec (- z) ltac:(lia)) as [_ [Hall _]].
    change (Py.contains c (String (Py.chr 45) (Py.str_nat (- z))))
      with (Ascii.eqb (Py.chr 45) c || Py.contains c (Py.str_nat (- z))).
    rewrite (digits_have_no c _ Hd Hall). rewrite orb_false_r.
    apply Ascii.eqb_neq. intros Heq. apply Hm. rewrite <- Heq. reflexivity.
  - destruct (str_nat_spec z Hpos) as [_ [Hall _]].
    apply digits_have_no; assumption.
Qed.

Lemma contains_join (c : ascii) (sep : string) (l : list string) :
  Py.contains c sep = false ->
  Forall (fun t => Py.contains c t = false) l ->
  Py.contains c (Py.join sep l) = false.
Proof.
  intros Hsep Hall. induction Hall as [|t ts Ht Hts IH]; [reflexivity|].
  destruct ts as [|t2 ts]; [exact Ht|].
  change (Py.join sep (t :: t2 :: ts))
    with (t +:+ sep +:+ Py.join sep (t2 :: ts)).
  rewrite !contains_app, Ht, Hsep, IH. reflexivity.
Qed.

(** ** Splitting a list joined with a comma and a blank *)

Lemma split_prefix (c : ascii) (p x : string) :
  Py.contains c p = false ->
  Py.split c (p +:+ x)
  = match Py.split c x with
    | t :: ts => (p +:+ t) :: ts
    | [] => [p]
    end.
Proof.
  induction p as [|a p IH]; intros Hp; sapp.
  - pose proof (split_not_empty c x) as Hne.
    destruct (Py.split c x); [congruence|reflexivity].
  - simpl in Hp. apply orb_false_iff in Hp. destruct Hp as [Ha Hp].
    simpl. rewrite Ha, IH by exact Hp.
    destruct (Py.split c x); reflexivity.
Qed.

Lemma split_join_sep (c : ascii) (sep : string) (toks : list string) :
  Py.contains c sep = false ->
  Forall (fun t => Py.contains c t = false) toks ->
  Py.split c (Py.join (String c sep) toks)
  = match toks with
    | t :: ts => t :: map (fun x => sep +:+ x) ts
    | [] => [EmptyString]
    end.
Proof.
  intros Hsep Hall. induction Hall as [|t ts Ht Hts IH]; [reflexivity|].
  destruct ts as [|t2 ts].
  - simpl. apply split_no_sep. exact Ht.
  - change (Py.join (String c sep) (t :: t2 :: ts))
      with (t +:+ String c sep +:+ Py.join (String c sep) (t2 :: ts)).
    rewrite append_cons, split_app by exact Ht.
    rewrite split_prefix by exact Hsep. rewrite IH. reflexivity.
Qed.

(** ** Reading back what was rendered *)

Lemma read_name (k rest n : string) (acc : list (string * string)) :
  Py.contains "=" k = false ->
  read_attrs (k +:+ rest) (InName n) acc
  = read_attrs rest (InName (n +:+ k)) acc.
Proof.
  revert n. induction k as [|c k IH]; intros n Hk; sapp.
  - rewrite append_empty_r. reflexivity.
  - simpl in Hk. apply orb_false_iff in Hk. destruct Hk as [Hc Hk].
    simpl. rewrite Hc. rewrite IH by exact Hk.
    change (String c EmptyString) with (Py.str1 c).
    rewrite append_snoc. reflexivity.
Qed.

Lemma read_value (v rest n v0 : string) (acc : list (string * string)) :
  Py.contains Py.dquote v = false ->
  read_attrs (v +:+ rest) (InValue n v0) acc
  = read_attrs rest (InValue n (v0 +:+ v)) acc.
Proof.
  revert v0. induction v as [|c v IH]; intros v0 Hv; sapp.
  - rewrite append_empty_r. reflexivity.
  - simpl in Hv. apply orb_false_iff in Hv. destruct Hv as [Hc Hv].
    simpl. change (Ascii.eqb c "034") with (Ascii.eqb c Py.dquote).
    rewrite Hc. rewrite IH by exact Hv.
    change (String c EmptyString) with (Py.str1 c).
    rewrite append_snoc. reflexivity.
Qed.

Lemma read_rendered_attr (kv : string * string) (rest : string)
  (acc : list (string * string)) :
  plain_attr kv ->
  read_attrs (Utils.render_attr kv +:+ rest) BetweenAttrs acc
  = read_attrs rest BetweenAttrs (kv :: acc).
Proof.
  destruct kv as [k v]. intros [Hk Hv]. simpl in Hk, Hv.
  unfold Utils.render_attr, Utils.quoted, Py.str1. simpl fst. simpl snd.
  rewrite !append_assoc. sapp. simpl.
  rewrite read_name by exact Hk. sapp. simpl.
  rewrite read_value by exact Hv. sapp. simpl. reflexivity.
Qed.

Lemma join_empty_cons (p : string) (l : list string) :
  Py.join EmptyString (p :: l) = p +:+ Py.join EmptyString l.
Proof.
  destruct l as [|q l]; simpl.
  - symmetry. apply append_empty_r.
  - reflexivity.
Qed.

Lemma read_rendered_attrs (attrs acc : list (string * string)) :
  Forall plain_attr attrs ->
  read_attrs (Py.join EmptyString (map Utils.render_attr attrs) +:+ ">")
    BetweenAttrs acc
  = Some (rev acc ++ attrs).
Proof.
  intros Hall. revert acc. induction Hall as [|kv rest Hkv Hrest IH]; intros acc.
  - simpl. rewrite app_nil_r. reflexivity.
  - simpl map. rewrite join_empty_cons, append_assoc.
    rewrite read_rendered_attr by exact Hkv. rewrite IH.
    simpl. rewrite <- app_assoc. reflexivity.
Qed.

(** A rendered tag whose attributes are plain is one [img] element with
    exactly those attributes. *)
Lemma read_img_render_img (attrs : list (string * string)) :
  Forall plain_attr attrs ->
  read_img (Utils.render_img attrs) = Some attrs.
Proof.
  intros Hall. unfold Utils.render_img. sapp. unfold read_img.
  apply (read_rendered_attrs attrs [] Hall).
Qed.
(** The attributes of the tag the builder renders, for file names that
    carry their widths. *)
Lemma make_html_attrs
  (static_helper : option string -> string -> string) (orig_img_file : string)
  (filenames : list string) (classes : option string) (img_sizes : string)
  (lazy : bool) (alt : string) (dir : option string) (flask : bool) :
  filenames <> [] ->
  Forall carries_width filenames ->
  exists (sorted : list (string * Z)) (widest : string)
         (attrs : list (string * string)),
    Utils.make_html static_helper orig_img_file filenames classes img_sizes
      lazy alt dir flask = Done (Utils.render_img attrs)
    /\ attrs
       = [("src", Utils.render_path static_helper dir flask widest);
          ("srcset",
           Py.join ", "
             (map (fun fw =>
                     Utils.render_path static_helper dir flask (fst fw)
                       +:+ " " +:+ Py.str_int (snd fw) +:+ "w")
                  sorted));
          ("sizes", img_sizes)]
         ++ match classes with Some c => [("class", c)] | None => [] end
         ++ (if lazy then [("loading", "lazy")] else [])
         ++ [("alt", alt)]
    /\ Permutation (map fst sorted) filenames
    /\ length sorted = length filenames
    /\ Forall (fun fw => Utils.width_of (fst fw) = Some (snd fw)) sorted
    /\ StronglySorted Z.le (map snd sorted)
    /\ In widest filenames
    /\ (forall f w, In (f, w) sorted ->
          exists wmax, Utils.width_of widest = Some wmax /\ w <= wmax)
    /\ (lazy = false -> ~ In "loading" (map fst attrs))
    /\ (StronglySorted width_leq filenames -> map fst sorted = filenames).
Proof.
  intros Hne Hall.
  set (srt := Utils.sort_by_width filenames).
  set (wd := fun f : string =>
               match Utils.width_of f with Some w => w | None => 0 end).
  pose proof (sort_by_width_perm filenames) as Hperm. fold srt in Hperm.
  pose proof (sort_by_width_sorted filenames) as Hsorted. fold srt in Hsorted.
  assert (Hcarry : Forall carries_width srt).
  { eapply Permutation_Forall; [symmetry; exact Hperm|exact Hall]. }
  assert (Hsrt_ne : srt <> []).
  { intros Hnil. rewrite Hnil in Hperm. apply Permutation_nil in Hperm.
    congruence. }
  destruct (last_some srt Hsrt_ne) as [widest Hlast].
  pose proof (sorted_last_widest srt widest Hsorted Hlast) as Hmax.
  assert (Hfst : map fst (map (fun f => (f, wd f)) srt) = srt).
  { rewrite map_map. simpl. apply map_id. }
  assert (Hentries :
            Utils.srcset_entries static_helper dir flask filenames
            = map (fun fw : string * Z =>
                     Utils.render_path static_helper dir flask (fst fw)
                       +:+ " " +:+ Py.str_int (snd fw) +:+ "w")
                  (map (fun f => (f, wd f)) srt)).
  { unfold Utils.srcset_entries. fold srt. rewrite map_map.
    apply map_ext_in. intros f Hf. simpl.
    rewrite List.Forall_forall in Hcarry. specialize (Hcarry f Hf).
    unfold Utils.srcset_entry, wd. unfold carries_width in Hcarry.
    destruct (Utils.width_of f); [reflexivity|congruence]. }
  exists (map (fun f => (f, wd f)) srt), widest.
  eexists. split; [|split; [reflexivity|]].
  - destruct filenames as [|f0 fs0]; [congruence|].
    unfold Utils.make_html, Utils.img_attrs, Utils.widest. fold srt.
    rewrite Hlast, Hentries. reflexivity.
  - split; [rewrite Hfst; exact Hperm|].
    split; [rewrite length_map; apply Permutation_length; exact Hperm|].
    split.
    { apply List.Forall_map. simpl.
      eapply List.Forall_impl; [|exact Hcarry].
      intros f Hf. unfold wd, carries_width in *.
      destruct (Utils.width_of f); [reflexivity|congruence]. }
    split.
    { rewrite map_map. simpl. apply sorted_widths_ascend; assumption. }
    split.
    { eapply Permutation_in; [exact Hperm|]. apply last_in. exact Hlast. }
    split.
    { intros f w Hin. apply in_map_iff in Hin.
      destruct Hin as [f' [Heq Hin]]. injection Heq as Hf Hw. subst f' w.
      rewrite List.Forall_forall in Hmax, Hcarry.
      pose proof (Hmax f Hin) as Hle.
      pose proof (Hcarry f Hin) as Hcf.
      pose proof (Hcarry widest (last_in srt widest Hlast)) as Hcw.
      unfold width_leq, Utils.width_le, carries_width, wd in *.
      destruct (Utils.width_of f); [|congruence].
      destruct (Utils.width_of widest) as [wmax|]; [|congruence].
      exists wmax. split; [reflexivity|]. apply Z.leb_le. exact Hle. }
    split.
    { intros ->. destruct classes; simpl; intros Hin;
        repeat (destruct Hin as [Hin|Hin]; [discriminate Hin|]);
        exact Hin. }
    intros Hasc. rewrite Hfst. apply sort_by_width_id. exact Hasc.
Qed.

(** An alt text that closes its own quotes: the text after the quote is
    read as one more attribute of the element. *)
Example alt_text_can_close_its_quotes :
  exists html,
    Utils.make_html Sample.flask_helper "img/photo_one.JPG"
      ["photo-one-400.webp"] None "50vw" false
      ("x" +:+ Utils.quoted " loading=" +:+ "lazy") None false = Done html
    /\ read_img html
       = Some [("src", "photo-one-400.webp");
               ("srcset", "photo-one-400.webp 400w"); ("sizes", "50vw");
               ("alt", "x"); ("loading", "lazy")].
Proof.
  eexists. split; [vm_compute; reflexivity|]. vm_compute. reflexivity.
Qed.

(** The claim C6 as it stands fails: with [lazy] unset, an alt text that
    closes its own quotes brings an attribute named loading into the
    returned element. *)
Lemma img_tag_claim_counterexample : ~ img_tag_claim Sample.flask_helper.
Proof.
  intros Hc.
  destruct (Hc "img/photo_one.JPG" ["photo-one-400.webp"] None "50vw" false
              ("x" +:+ Utils.quoted " loading=" +:+ "lazy") None false)
    as [html [attrs [srcset [Hrun [Hread [_ [_ Hlazy]]]]]]];
    [discriminate|].
  vm_compute in Hrun. injection Hrun as <-.
  vm_compute in Hread. injection Hread as <-.
  apply (Hlazy eq_refl). simpl. do 4 right. left. reflexivity.
Qed.

(** The two other ways the returned text departs from the claim: the call
    syntax of the static-asset helper holds a comma of its own, so two
    file names give four comma-separated pieces; and a name that carries
    no width has no width descriptor. *)
Example helper_syntax_holds_commas :
  exists html attrs srcset,
    Utils.make_html Sample.flask_helper "img/photo_one.JPG"
      ["photo-one-400.webp"; "photo-one-800.webp"] None "50vw" false "x" None
      true = Done html
    /\ read_img html = Some attrs
    /\ attr_value "srcset" attrs = Some srcset
    /\ length (Py.split Py.comma srcset) = 4%nat.
Proof.
  eexists. eexists. eexists.
  split; [vm_compute; reflexivity|].
  split; [vm_compute; reflexivity|].
  split; [vm_compute; reflexivity|].
  vm_compute. reflexivity.
Qed.

Example name_without_width_has_no_descriptor :
  exists html,
    Utils.make_html Sample.flask_helper "img/photo_one.JPG" ["plain.webp"]
      None "50vw" false "x" None false = Done html
    /\ read_img html
       = Some [("src", "plain.webp"); ("srcset", "plain.webp");
               ("sizes", "50vw"); ("alt", "x")].
Proof.
  eexists. split; [vm_compute; reflexivity|]. vm_compute. reflexivity.
Qed.

(** C6, as amended: for a list of file names that is not empty, each
    carrying its width, the builder returns the text
    [<img src=.. srcset=.. sizes=..] then [class=..] when classes are
    given, [loading=..] when [lazy] is set, and [alt=..>], each value
    between double quotes and inserted as it is.  The [srcset] value is the
    list, joined with a comma and a blank, of one entry per input file
    name, the path, a blank, the width and the letter w, in ascending order
    of width (the order of the input when it is ascending already); the
    [src] value is the path of a widest variant.  When no rendered path
    and none of sizes, classes and alt holds a double quote, the text is
    one [img] element with exactly these attributes, so without [lazy] none
    is named loading; when no rendered path holds a comma, splitting the
    [srcset] value at commas gives one piece per file name. *)
Theorem img_tag_lists_every_variant
  (static_helper : option string -> string -> string) (orig_img_file : string)
  (filenames : list string) (classes : option string) (img_sizes : string)
  (lazy : bool) (alt : string) (dir : option string) (flask : bool) :
  filenames <> [] ->
  Forall carries_width filenames ->
  exists (sorted : list (string * Z)) (widest html : string),
    let path := fun name : string =>
      if flask then static_helper dir name
      else match dir with Some d => d +:+ "/" +:+ name | None => name end in
    let entries :=
      map (fun fw : string * Z =>
             path (fst fw) +:+ " " +:+ Py.str_int (snd fw) +:+ "w") sorted in
    let srcset := Py.join ", " entries in
    let q := String "034" EmptyString in
    let attrs :=
      [("src", path widest); ("srcset", srcset); ("sizes", img_sizes)]
        ++ match classes with Some c => [("class", c)] | None => [] end
        ++ (if lazy then [("loading", "lazy")] else [])
        ++ [("alt", alt)] in
    Utils.make_html static_helper orig_img_file filenames classes img_sizes
      lazy alt dir flask = Done html
    /\ html
       = "<img src=" +:+ q +:+ path widest +:+ q
           +:+ " srcset=" +:+ q +:+ srcset +:+ q
           +:+ " sizes=" +:+ q +:+ img_sizes +:+ q
           +:+ match classes with
               | Some c => " class=" +:+ q +:+ c +:+ q
               | None => EmptyString
               end
           +:+ (if lazy then " loading=" +:+ q +:+ "lazy" +:+ q
                else EmptyString)
           +:+ " alt=" +:+ q +:+ alt +:+ q +:+ ">"
    /\ Permutation (map fst sorted) filenames
    /\ length sorted = length filenames
    /\ Forall (fun fw => Utils.width_of (fst fw) = Some (snd fw)) sorted
    /\ StronglySorted Z.le (map snd sorted)
    /\ In widest filenames
    /\ (forall f w, In (f, w) sorted ->
          exists wmax, Utils.width_of widest = Some wmax /\ w <= wmax)
    /\ (StronglySorted width_leq filenames -> map fst sorted = filenames)
    /\ (Forall (fun f => Py.contains "034" (path f) = false) filenames ->
        Py.contains "034" img_sizes = false ->
        (forall c, classes = Some c -> Py.contains "034" c = false) ->
        Py.contains "034" alt = false ->
        read_img html = Some attrs
        /\ (lazy = false -> ~ In "loading" (map fst attrs)))
    /\ (Forall (fun f => Py.contains "," (path f) = false) filenames ->
        Py.split "," srcset
        = match entries with
          | e :: es => e :: map (fun x => " " +:+ x) es
          | [] => [EmptyString]
          end
        /\ length (Py.split "," srcset) = length filenames).
Proof.
  intros Hne Hall.
  destruct (make_html_attrs static_helper orig_img_file filenames classes
              img_sizes lazy alt dir flask Hne Hall)
    as [sorted [widest [attrs [Hrun [Hattrs [Hperm [Hlen [Hw [Hasc [Hin
        [Hmax [Hlazy Hkeep]]]]]]]]]]]].
  exists sorted, widest, (Utils.render_img attrs).
  cbv zeta.
  set (path := fun name : string =>
         if flask then static_helper dir name
         else match dir with Some d => d +:+ "/" +:+ name | None => name end).
  assert (Hpath : forall name,
             Utils.render_path static_helper dir flask name = path name)
    by reflexivity.
  assert (Hsorted_in : forall fw, In fw sorted -> In (fst fw) filenames).
  { intros fw Hfw. eapply Permutation_in; [exact Hperm|].
    apply in_map. exact Hfw. }
  assert (Hentries : forall c,
             Py.is_digit c = false -> Py.code c <> 45 ->
             Py.contains c " " = false -> Py.contains c "w" = false ->
             Forall (fun f => Py.contains c (path f) = false) filenames ->
             Forall (fun t => Py.contains c t = false)
               (map (fun fw : string * Z =>
                       path (fst fw) +:+ " " +:+ Py.str_int (snd fw) +:+ "w")
                    sorted)).
  { intros c Hd Hm Hb Hletter Hfree. apply List.Forall_map.
    apply List.Forall_forall. intros fw Hfw.
    rewrite List.Forall_forall in Hfree.
    rewrite !contains_app, (Hfree _ (Hsorted_in fw Hfw)), Hb,
      (str_int_lacks c _ Hd Hm), Hletter. reflexivity. }
  split; [exact Hrun|].
  split.
  { rewrite Hattrs. unfold Utils.render_img, Utils.render_attr, Utils.quoted.
    rewrite !Hpath.
    destruct classes, lazy; simpl; unfold Py.str1;
      rewrite ?append_assoc; sapp; reflexivity. }
  split; [exact Hperm|]. split; [exact Hlen|]. split; [exact Hw|].
  split; [exact Hasc|]. split; [exact Hin|]. split; [exact Hmax|].
  split; [exact Hkeep|].
  split.
  - intros Hq Hsizes Hclasses Halt.
    assert (Hplain : Forall plain_attr attrs).
    { rewrite Hattrs. rewrite !Hpath.
      assert (Hsrc : plain_attr ("src", path widest)).
      { split; [reflexivity|]. rewrite List.Forall_forall in Hq.
        apply Hq. exact Hin. }
      assert (Hset : plain_attr
                       ("srcset",
                        Py.join ", "
                          (map (fun fw : string * Z =>
                                  path (fst fw) +:+ " " +:+ Py.str_int (snd fw)
                                    +:+ "w") sorted))).
      { split; [reflexivity|]. apply contains_join; [reflexivity|].
        apply Hentries; try reflexivity; [discriminate|exact Hq]. }
      assert (Hsz : plain_attr ("sizes", img_sizes)) by (split; auto).
      assert (Halt' : plain_attr ("alt", alt)) by (split; auto).
      assert (Hcls : forall c, classes = Some c -> plain_attr ("class", c))
        by (intros c Hc; split; auto).
      assert (Hload : plain_attr ("loading", "lazy")) by (split; reflexivity).
      destruct classes as [c|], lazy; simpl;
        repeat (apply Forall_cons; split; [solve [auto]|]);
        apply Forall_nil; exact I. }
    split.
    + rewrite (read_img_render_img attrs Hplain). rewrite Hattrs, !Hpath.
      reflexivity.
    + intros Hl. specialize (Hlazy Hl). rewrite Hattrs in Hlazy.
      exact Hlazy.
  - intros Hc.
    assert (Hsplit :
              Py.split ","
                (Py.join ", "
                   (map (fun fw : string * Z =>
                           path (fst fw) +:+ " " +:+ Py.str_int (snd fw)
                             +:+ "w") sorted))
              = match map (fun fw : string * Z =>
                             path (fst fw) +:+ " " +:+ Py.str_int (snd fw)
                               +:+ "w") sorted with
                | e :: es => e :: map (fun x => " " +:+ x) es
                | [] => [EmptyString]
                end).
    { apply (split_join_sep "," " "); [reflexivity|].
      apply Hentries; try reflexivity; [discriminate|exact Hc]. }
    split; [exact Hsplit|]. rewrite Hsplit.
    destruct sorted as [|fw sorted'].
    + simpl in Hlen. destruct filenames; [congruence|discriminate Hlen].
    + simpl. rewrite !length_map. simpl in Hlen. exact Hlen.
Qed.

Lemma img_tag_lists_every_variant_witness :
  ["photo-one-400.webp"; "photo-one-800.webp"] <> []
  /\ Forall carries_width ["photo-one-400.webp"; "photo-one-800.webp"]
  /\ exists html attrs srcset,
       Utils.make_html Sample.flask_helper "img/photo_one.JPG"
         ["photo-one-400.webp"; "photo-one-800.webp"] None "50vw" false "x"
         None false = Done html
       /\ read_img html = Some attrs
       /\ ~ In "loading" (map fst attrs)
       /\ length (Py.split "," srcset) = 2%nat.
Proof.
  assert (Hne : ["photo-one-400.webp"; "photo-one-800.webp"] <> [])
    by discriminate.
  assert (Hall : Forall carries_width
                   ["photo-one-400.webp"; "photo-one-800.webp"]).
  { repeat constructor; unfold carries_width; vm_compute; discriminate. }
  split; [exact Hne|]. split; [exact Hall|].
  destruct (img_tag_lists_every_variant Sample.flask_helper
              "img/photo_one.JPG" ["photo-one-400.webp"; "photo-one-800.webp"]
              None "50vw" false "x" None false Hne Hall)
    as [sorted [widest [html Hfacts]]].
  cbv zeta in Hfacts.
  destruct Hfacts as [Hrun [_ [_ [_ [_ [_ [_ [_ [_ [Hread Hsplit]]]]]]]]]].
  destruct Hread as [Hread Hlazy].
  - repeat constructor.
  - reflexivity.
  - discriminate.
  - reflexivity.
  - destruct Hsplit as [_ Hlen]; [repeat constructor|].
    eexists html, _, _. split; [exact Hrun|]. split; [exact Hread|].
    split; [apply Hlazy; reflexivity|exact Hlen].
Defined.
